(** Verification development for [src/main.py] of the "Space Venue Manager":
    the station timer engine [StationState], the session persistence of
    [SpaceApp._stop_station] / [_save_session], the sale flow
    ([SpaceApp._sell_item], [SaleDialog._confirm], [SpaceApp._record_sale])
    and the report aggregation of [SpaceApp._build_report] / [_export_report];
    also the dashboard line, [format_currency] and [to_arabic_numerals], the
    cash form, the item dialogs and table, and the column sort
    [SpaceApp._sort_tree].

    Modelling conventions.
    - Python floats (clock readings of [time.time()], elapsed seconds, rates,
      prices, costs) are modelled by exact rationals [Q]; rounding of binary
      floating point is not modelled.
    - Every read of the clock is an explicit argument of the operation that
      performs it.
    - An operation that can raise returns [option]: [None] is the raised
      exception (a [TypeError] on [None - float], an [OverflowError] of
      [datetime], ...).
    - The sqlite tables are lists of rows in insertion order. *)

From Stdlib Require Import QArith Qround Qabs Lqa ZArith Lia List String Ascii Bool.
From Stdlib Require Import Permutation Sorted.
Import ListNotations.
Open Scope Q_scope.

(* ------------------------------------------------------------------ *)
(** * The station timer engine: class [StationState] *)

Module Engine.

(** The attributes of a [StationState] object ([station] and the
    [on_update] callback are not modelled: the callback only refreshes the
    display). [start_ts] is [None] in Python until [start()] is called. *)
Record StationState := mkState {
  running : bool;
  paused : bool;
  start_ts : option Q;
  elapsed : Q;
  customer_name : string
}.

(** [StationState.__init__] *)
Definition init : StationState :=
  mkState false false None 0 "".

(** [time.time() - self.start_ts]: raises [TypeError] when [start_ts] is
    [None]. *)
Definition since (now : Q) (ts : option Q) : option Q :=
  match ts with
  | Some a => Some (now - a)
  | None => None
  end.

(** [StationState.start]; [now] is the value of [time.time()]. *)
Definition start (now : Q) (s : StationState) : StationState :=
  if running s then s
  else mkState true false (Some now) (elapsed s) (customer_name s).

(** [StationState.pause] (the pause/resume toggle). *)
Definition pause (now : Q) (s : StationState) : option StationState :=
  if negb (running s) then Some s
  else if negb (paused s) then
    match since now (start_ts s) with
    | Some d => Some (mkState (running s) true (start_ts s) (elapsed s + d)
                              (customer_name s))
    | None => None
    end
  else Some (mkState (running s) false (Some now) (elapsed s) (customer_name s)).

(** [StationState.stop] *)
Definition stop (now : Q) (s : StationState) : option StationState :=
  if negb (running s) then Some s
  else
    match (if negb (paused s) then
             match since now (start_ts s) with
             | Some d => Some (elapsed s + d)
             | None => None
             end
           else Some (elapsed s)) with
    | Some e => Some (mkState false false (start_ts s) e (customer_name s))
    | None => None
    end.

(** [StationState.reset] *)
Definition reset (s : StationState) : StationState :=
  mkState false false None 0 "".

(** [StationState.current_elapsed] *)
Definition current_elapsed (now : Q) (s : StationState) : option Q :=
  if running s && negb (paused s) then
    match since now (start_ts s) with
    | Some d => Some (elapsed s + d)
    | None => None
    end
  else Some (elapsed s).

(** The three states of the spec, read off the two flags as the dashboard
    ([SpaceApp._update_dashboard]) does. *)
Inductive phase := Stopped | Running | Paused.

Definition phase_of (s : StationState) : phase :=
  if running s then (if paused s then Paused else Running) else Stopped.

(** The operations a caller can invoke on one station, each with the clock
    reading it takes ([reset] reads no clock). *)
Inductive op := OStart | OPause | OStop | OReset.

Definition step (o : op) (now : Q) (s : StationState) : option StationState :=
  match o with
  | OStart => Some (start now s)
  | OPause => pause now s
  | OStop => stop now s
  | OReset => Some (reset s)
  end.

(** A run of timed operations from a given state. *)
Fixpoint run (tr : list (op * Q)) (s : StationState) : option StationState :=
  match tr with
  | [] => Some s
  | (o, t) :: tr' =>
      match step o t s with
      | Some s' => run tr' s'
      | None => None
      end
  end.

(** The anchor is set whenever the station is running and not paused. *)
Definition anchored (s : StationState) : Prop :=
  running s = true -> paused s = false -> exists a, start_ts s = Some a.

End Engine.

(* ------------------------------------------------------------------ *)
(** * Dates and ISO-8601 text ([datetime], [now_iso]) *)

Module Time.

Local Open Scope string_scope.
Local Open Scope Z_scope.

Record date := mkDate { year : Z; month : Z; day : Z }.

Record datetime := mkDT {
  dt_date : date;
  hour : Z; minute : Z; second : Z; microsecond : Z
}.

(** Gregorian calendar, as Python's [datetime] module has it. *)
Definition is_leap (y : Z) : bool :=
  (y mod 4 =? 0) && (negb (y mod 100 =? 0) || (y mod 400 =? 0)).

Definition days_in_month (y m : Z) : Z :=
  if m =? 2 then (if is_leap y then 29 else 28)
  else if (m =? 4) || (m =? 6) || (m =? 9) || (m =? 11) then 30
  else 31.

(** [datetime.MINYEAR = 1], [datetime.MAXYEAR = 9999]. *)
Definition valid_date (d : date) : bool :=
  (1 <=? year d) && (year d <=? 9999) && (1 <=? month d) && (month d <=? 12)
  && (1 <=? day d) && (day d <=? days_in_month (year d) (month d)).

(** The following day; [OverflowError] past 9999-12-31. *)
Definition next_date (d : date) : option date :=
  if day d <? days_in_month (year d) (month d)
  then Some (mkDate (year d) (month d) (day d + 1))
  else if month d <? 12 then Some (mkDate (year d) (month d + 1) 1)
  else if year d <? 9999 then Some (mkDate (year d + 1) 1 1)
  else None.

(** The previous day; [OverflowError] before 0001-01-01. *)
Definition prev_date (d : date) : option date :=
  if 1 <? day d then Some (mkDate (year d) (month d) (day d - 1))
  else if 1 <? month d then
    Some (mkDate (year d) (month d - 1)
                 (days_in_month (year d) (month d - 1)))
  else if 1 <? year d then Some (mkDate (year d - 1) 12 31)
  else None.

Fixpoint add_days (n : nat) (d : date) : option date :=
  match n with
  | O => Some d
  | S n' => match next_date d with
            | Some d' => add_days n' d'
            | None => None
            end
  end.

(** [x + dt.timedelta(days=n)] *)
Definition dt_add_days (n : nat) (x : datetime) : option datetime :=
  match add_days n (dt_date x) with
  | Some d => Some (mkDT d (hour x) (minute x) (second x) (microsecond x))
  | None => None
  end.

(** [x - dt.timedelta(seconds=1)] *)
Definition dt_sub_second (x : datetime) : option datetime :=
  let sod := hour x * 3600 + minute x * 60 + second x in
  if 1 <=? sod then
    let t := sod - 1 in
    Some (mkDT (dt_date x) (t / 3600) ((t mod 3600) / 60) (t mod 60)
               (microsecond x))
  else match prev_date (dt_date x) with
       | Some d => Some (mkDT d 23 59 59 (microsecond x))
       | None => None
       end.

(** [dt.datetime.combine(d, dt.time.min)], also [dt.datetime(y, m, d)]. *)
Definition midnight (d : date) : datetime := mkDT d 0 0 0 0.

(** [dt.datetime.combine(d, dt.time.max)]: [dt.time.max] is 23:59:59.999999. *)
Definition combine_max (d : date) : datetime := mkDT d 23 59 59 999999.

(** Decimal digits with zero padding, as [%02d], [%04d], [%06d]. *)
Definition digit (n : Z) : ascii := ascii_of_nat (48 + Z.to_nat n).

Fixpoint pad (w : nat) (n : Z) (acc : string) : string :=
  match w with
  | O => acc
  | S w' => pad w' (n / 10) (String (digit (n mod 10)) acc)
  end.

Definition pad2 (n : Z) : string := pad 2 n EmptyString.
Definition pad4 (n : Z) : string := pad 4 n EmptyString.
Definition pad6 (n : Z) : string := pad 6 n EmptyString.

Definition iso_date (d : date) : string :=
  pad4 (year d) ++ "-" ++ pad2 (month d) ++ "-" ++ pad2 (day d).

(** [datetime.isoformat(timespec="seconds")] *)
Definition isoformat_seconds (x : datetime) : string :=
  iso_date (dt_date x) ++ "T" ++ pad2 (hour x) ++ ":" ++ pad2 (minute x)
  ++ ":" ++ pad2 (second x).

(** [datetime.isoformat()]: the fraction is written only when the
    microseconds are not zero. *)
Definition isoformat (x : datetime) : string :=
  isoformat_seconds x
  ++ (if microsecond x =? 0 then EmptyString
      else "." ++ pad6 (microsecond x)).

(** [now_iso()], given the reading [x] of [dt.datetime.now()]. *)
Definition now_iso (x : datetime) : string := isoformat_seconds x.

(** sqlite's [x BETWEEN lo AND hi] on TEXT with the BINARY collation:
    byte-wise comparison, a proper prefix sorting first. *)
Definition between (x lo hi : string) : bool :=
  match String.compare x lo with Lt => false | _ => true end
  && match String.compare x hi with Gt => false | _ => true end.

(** Two readings of [dt.datetime.now()] in the same second. *)
Definition same_second (x y : datetime) : Prop :=
  dt_date x = dt_date y /\ hour x = hour y /\
  minute x = minute y /\ second x = second y.

(** Days of the months of year [y] before month [n + 1]. *)
Fixpoint days_before_month_go (y : Z) (n : nat) : Z :=
  match n with
  | O => 0
  | S n' => days_before_month_go y n' + days_in_month y (Z.of_nat n)
  end.

(** [datetime._days_before_month] *)
Definition days_before_month (y m : Z) : Z := days_before_month_go y (Z.to_nat (m - 1)).

(** [datetime._days_before_year] *)
Definition days_before_year (y : Z) : Z :=
  let y' := y - 1 in y' * 365 + y' / 4 - y' / 100 + y' / 400.

(** [date.toordinal()] *)
Definition toordinal (d : date) : Z :=
  days_before_year (year d) + days_before_month (year d) (month d) + day d.

(** The instant the text [now_iso x] names, in seconds: [now_iso] drops the
    microseconds, so the difference of two such values is what
    [fromisoformat(end) - fromisoformat(start)] gives in seconds. *)
Definition timestamp_seconds (x : datetime) : Z :=
  toordinal (dt_date x) * 86400 + hour x * 3600 + minute x * 60 + second x.

(** The reading [x] of the clock itself, in microseconds. *)
Definition reading_us (x : datetime) : Z := timestamp_seconds x * 1000000 + microsecond x.

End Time.

(* ------------------------------------------------------------------ *)
(** * The database and the operations of [SpaceApp] *)

Module App.

Local Open Scope string_scope.

(** Rows of the four tables created by [init_db]; the AUTOINCREMENT [id]
    of the append-only tables is left implicit (the insertion order). *)
Record item := mkItem { item_key : Z; name : string; price : Q }.

Record item_sale := mkSale { sale_ts : string; item_id : Z; qty : Z; total : Q }.

Record cash_transaction := mkCash {
  cash_ts : string; type_ : string; amount : Q; notes : string }.

Record session := mkSession {
  station_name : string;
  customer_name : string;
  start_ts : string;
  end_ts : string;
  duration_seconds : Z;
  rate_per_hour : Q;
  cost : Q
}.

Record database := mkDb {
  items : list item;
  item_sales : list item_sale;
  cash_transactions : list cash_transaction;
  sessions : list session
}.

Definition empty_db : database := mkDb [] [] [] [].

(** An entry of [STATIONS]: its name and the current value of its
    [rate_var] (the operator-editable [tk.DoubleVar]). *)
Record station := mkStation { st_name : string; rate_var : Q }.

(** Python's [int(x)] on a float: truncation toward zero. *)
Definition py_int (x : Q) : Z :=
  if Qle_bool 0 x then Qfloor x else (- Qfloor (- x))%Z.

(** [SpaceApp._save_session]; [d1] and [d2] are the two readings of
    [dt.datetime.now()] taken by the two calls of [now_iso()]. *)
Definition save_session (db : database) (station_name customer_name : string)
    (elapsed rate cost : Q) (d1 d2 : Time.datetime) : database :=
  mkDb (items db) (item_sales db) (cash_transactions db)
       (sessions db ++ [mkSession station_name customer_name
                         (Time.now_iso d1) (Time.now_iso d2)
                         (py_int elapsed) rate cost]).

(** [SpaceApp._stop_station]. The clock is read by [state.stop()]
    ([t_stop]), by [state.current_elapsed()] ([t_query]) and twice by
    [_save_session] ([d1], [d2]). *)
Definition stop_station (t_stop t_query : Q) (d1 d2 : Time.datetime)
    (st : station) (s : Engine.StationState) (db : database)
    : option (Engine.StationState * database) :=
  if negb (Engine.running s) then Some (s, db)
  else
    match Engine.stop t_stop s with
    | None => None
    | Some s' =>
        match Engine.current_elapsed t_query s' with
        | None => None
        | Some elapsed =>
            let cost := (elapsed / 3600) * rate_var st in
            Some (s', save_session db (st_name st) (Engine.customer_name s')
                                   elapsed (rate_var st) cost d1 d2)
        end
    end.

(** [SpaceApp._reset_station] *)
Definition reset_station (s : Engine.StationState) (db : database)
    : Engine.StationState * database :=
  (Engine.reset s, db).

(** [SELECT name, price FROM items WHERE id = ?] *)
Fixpoint find_item (l : list item) (k : Z) : option item :=
  match l with
  | [] => None
  | it :: l' => if Z.eqb (item_key it) k then Some it else find_item l' k
  end.

(** [SpaceApp._sell_item] after the selection check: the name and price
    shown by the [SaleDialog], or nothing when the row is missing. *)
Definition sell_item (db : database) (k : Z) : option (string * Q) :=
  match find_item (items db) k with
  | Some it => Some (name it, price it)
  | None => None
  end.

(** [SpaceApp._record_sale]; [now] is the reading of [dt.datetime.now()]. *)
Definition record_sale (db : database) (k : Z) (price : Q) (qty : Z)
    (now : Time.datetime) : database :=
  let total := price * inject_Z qty in
  mkDb (items db) (item_sales db ++ [mkSale (Time.now_iso now) k qty total])
       (cash_transactions db) (sessions db).

(** What [SaleDialog._confirm] shows: the sale went through, or a warning
    dialog with its title and message. *)
Inductive outcome := Recorded | Warning (title message : string).

(** [SaleDialog._confirm], whose [on_sale] is the lambda built by
    [_sell_item]: [lambda qty: self._record_sale(item_id, row[1], qty)]. *)
Definition confirm (k : Z) (price : Q) (qty : Z) (now : Time.datetime)
    (db : database) : outcome * database :=
  if (qty <=? 0)%Z then (Warning "Invalid" "Quantity must be at least 1.", db)
  else (Recorded, record_sale db k price qty now).

(** sqlite's [SUM]: NULL over no rows; [COALESCE(_, 0)]. *)
Definition sql_sum (l : list Q) : option Q :=
  match l with
  | [] => None
  | _ => Some (fold_left Qplus l 0)
  end.

Definition coalesce0 (x : option Q) : Q :=
  match x with Some v => v | None => 0 end.

(** [CASE WHEN type = 'deposit' THEN amount ELSE -amount END] *)
Definition signed_amount (c : cash_transaction) : Q :=
  if String.eqb (type_ c) "deposit" then amount c else - amount c.

(** The three sums, over the rows kept by the filters. *)
Definition sessions_sum (p : string -> bool) (db : database) : Q :=
  coalesce0 (sql_sum (map cost (filter (fun r => p (start_ts r)) (sessions db)))).

Definition sales_sum (p : string -> bool) (db : database) : Q :=
  coalesce0 (sql_sum (map total (filter (fun r => p (sale_ts r)) (item_sales db)))).

Definition cash_sum (p : string -> bool) (db : database) : Q :=
  coalesce0 (sql_sum (map signed_amount
                        (filter (fun r => p (cash_ts r)) (cash_transactions db)))).

(** The figures written into [report_text] by [_build_report] (the title
    line is not modelled). *)
Record report := mkReport {
  session_revenue : Q;
  item_sales_total : Q;
  cash_net : Q;
  total_revenue : Q
}.

Inductive mode := Daily | Monthly.

(** The window [(start, end)] of [_build_report]; [today] is the value of
    [dt.date.today()]; [None] when the date arithmetic overflows. *)
Definition report_window (m : mode) (today : Time.date)
    : option (Time.datetime * Time.datetime) :=
  match m with
  | Daily => Some (Time.midnight today, Time.combine_max today)
  | Monthly =>
      let start := Time.midnight (Time.mkDate (Time.year today) (Time.month today) 1) in
      match Time.dt_add_days 32 start with
      | None => None
      | Some next_month =>
          match Time.dt_sub_second
                  (Time.midnight (Time.mkDate (Time.year (Time.dt_date next_month))
                                              (Time.month (Time.dt_date next_month)) 1)) with
          | None => None
          | Some e => Some (start, e)
          end
      end
  end.

(** [SpaceApp._build_report] *)
Definition build_report (m : mode) (today : Time.date) (db : database)
    : option report :=
  match report_window m today with
  | None => None
  | Some (start, e) =>
      let p := fun ts => Time.between ts (Time.isoformat start) (Time.isoformat e) in
      let sessions_total := sessions_sum p db in
      let sales_total := sales_sum p db in
      let cash_total := cash_sum p db in
      Some (mkReport sessions_total sales_total cash_total
                     (sessions_total + sales_total))
  end.

(** [SpaceApp._export_report]: the header row and the three data rows of the
    CSV file, each amount as the number passed to the [:.2f] format. *)
Definition export_header : list string := ["Section"; "Amount (EGP)"].

Definition export_report (db : database) : list (string * Q) :=
  let all := fun _ : string => true in
  [("Sessions", sessions_sum all db);
   ("Item Sales", sales_sum all db);
   ("Cash Net", cash_sum all db)].

End App.


(* ------------------------------------------------------------------ *)
(** * Properties of the timer engine *)

(* ------------------------------------------------------------------ *)
(** * The rest of [SpaceApp]: dashboard, numerals, cash, items, report view *)

Module Ui.

Local Open Scope string_scope.

(** Text as Python has it: a sequence of Unicode code points. *)
Definition text := list Z.

(** [to_arabic_numerals]: [str.maketrans("0123456789", "٠١٢٣٤٥٦٧٨٩")]
    maps U+0030..U+0039 to U+0660..U+0669 and [translate] leaves every
    other code point as it is. *)
Definition translate_digit (c : Z) : Z :=
  if ((48 <=? c) && (c <=? 57))%Z then (c - 48 + 1632)%Z else c.

Definition to_arabic_numerals (t : text) : text := map translate_digit t.

Definition is_ascii_digit (c : Z) : bool := ((48 <=? c) && (c <=? 57))%Z.
Definition is_arabic_digit (c : Z) : bool := ((1632 <=? c) && (c <=? 1641))%Z.

(** [SpaceApp._start_station]: the customer name is copied from the
    station's entry before [state.start()] is called. *)
Definition start_station (customer_var : string) (now : Q)
    (s : Engine.StationState) : Engine.StationState :=
  Engine.start now (Engine.mkState (Engine.running s) (Engine.paused s)
                      (Engine.start_ts s) (Engine.elapsed s) customer_var).

(** [time.strftime("%H:%M:%S", time.gmtime(elapsed))]: [gmtime] floors the
    float to whole seconds since the epoch (1970-01-01 00:00:00 UTC), and
    the clock face is the time of day of that instant. [gmtime] raises
    [OverflowError] outside the platform's time range, which is not
    modelled: the theorems below keep [elapsed] inside it. *)
Definition timer_text (elapsed : Q) : string :=
  let t := (Qfloor elapsed mod 86400)%Z in
  Time.pad2 (t / 3600)%Z ++ ":" ++ Time.pad2 ((t mod 3600) / 60)%Z ++ ":"
  ++ Time.pad2 (t mod 60)%Z.

(** The state label of [_update_dashboard]. *)
Definition state_label (s : Engine.StationState) : string :=
  if Engine.running s then (if Engine.paused s then "Paused" else "Active")
  else "Stopped".

(** One station's line of [_update_dashboard]: the timer text, the cost
    [(elapsed / 3600) * rate_var] (before [format_currency]) and the state
    label; [now] is the reading of [time.time()] inside
    [state.current_elapsed()]. *)
Definition dashboard_line (now : Q) (st : App.station) (s : Engine.StationState)
    : option (string * Q * string) :=
  match Engine.current_elapsed now s with
  | Some e => Some (timer_text e, (e / 3600) * App.rate_var st, state_label s)
  | None => None
  end.

(** The cash form of the Cash tab: [cash_amount] ([tk.DoubleVar]),
    [cash_type] (the editable combobox) and [cash_notes]. *)
Record cash_form := mkCashForm {
  cash_amount : Q; cash_type : string; cash_notes : string }.

(** [SpaceApp._add_cash]; [now] is the reading of [dt.datetime.now()]. *)
Definition add_cash (now : Time.datetime) (f : cash_form) (db : App.database)
    : App.outcome * cash_form * App.database :=
  if Qle_bool (cash_amount f) 0 then
    (App.Warning "Invalid amount" "Amount must be greater than zero.", f, db)
  else
    (App.Recorded, mkCashForm 0 (cash_type f) "",
     App.mkDb (App.items db) (App.item_sales db)
       (App.cash_transactions db ++
        [App.mkCash (Time.now_iso now) (cash_type f) (cash_amount f) (cash_notes f)])
       (App.sessions db)).

(** The [items] table with its AUTOINCREMENT counter (sqlite_sequence):
    the largest id ever handed out. *)
Record items_table := mkItems { rows : list App.item; seq : Z }.

Definition empty_items : items_table := mkItems [] 0.

Definition max_id (l : list App.item) : Z :=
  fold_right (fun it m => Z.max (App.item_key it) m) 0%Z l.

(** The largest rowid sqlite can store; AUTOINCREMENT fails with
    SQLITE_FULL past it. *)
Definition max_rowid : Z := 9223372036854775807%Z.

(** [INSERT INTO items (name, price) VALUES (?, ?)] ([_save_new_item]):
    the new id is one more than the largest id ever used; [None] is the
    SQLITE_FULL error. *)
Definition save_new_item (nm : string) (p : Q) (T : items_table)
    : option items_table :=
  let k := (Z.max (seq T) (max_id (rows T)) + 1)%Z in
  if (k <=? max_rowid)%Z then Some (mkItems (rows T ++ [App.mkItem k nm p]) k)
  else None.

(** [UPDATE items SET name = ?, price = ? WHERE id = ?] ([_update_item]). *)
Definition update_item (k : Z) (nm : string) (p : Q) (T : items_table)
    : items_table :=
  mkItems (map (fun it => if (App.item_key it =? k)%Z then App.mkItem k nm p else it)
               (rows T)) (seq T).

(** [DELETE FROM items WHERE id = ?] ([_delete_item]). *)
Definition delete_item (k : Z) (T : items_table) : items_table :=
  mkItems (filter (fun it => negb (App.item_key it =? k)%Z) (rows T)) (seq T).

(** The operator's actions on the Items tab: the Add dialog saved with a raw
    name and a price, the Edit dialog of item [k] saved likewise, and Delete
    of item [k] answered yes or no in the confirmation box. *)
Inductive item_cmd :=
  | CAdd (raw : string) (p : Q)
  | CEdit (k : Z) (raw : string) (p : Q)
  | CDelete (k : Z) (yes : bool).

Section ItemDialogs.

(** Python's [str.strip()]. *)
Variable strip : string -> string.

(** [ItemDialog._save]'s check: [not name or price <= 0]. *)
Definition dialog_rejects (raw : string) (p : Q) : bool :=
  String.eqb (strip raw) "" || Qle_bool p 0.

(** [_add_item] / [_edit_item] / [_delete_item] with their dialogs; a
    rejected dialog shows a warning and changes nothing; [_edit_item] opens
    no dialog when the item is missing. *)
Definition item_step (c : item_cmd) (T : items_table) : option items_table :=
  match c with
  | CAdd raw p =>
      if dialog_rejects raw p then Some T else save_new_item (strip raw) p T
  | CEdit k raw p =>
      match App.find_item (rows T) k with
      | None => Some T
      | Some _ => if dialog_rejects raw p then Some T
                  else Some (update_item k (strip raw) p T)
      end
  | CDelete k yes => if yes then Some (delete_item k T) else Some T
  end.

Fixpoint item_run (cs : list item_cmd) (T : items_table) : option items_table :=
  match cs with
  | [] => Some T
  | c :: cs' => match item_step c T with
                | Some T' => item_run cs' T'
                | None => None
                end
  end.

End ItemDialogs.

(** A well-formed reading of [dt.datetime.now()]. *)
Definition valid_datetime (x : Time.datetime) : bool :=
  Time.valid_date (Time.dt_date x) && (0 <=? Time.hour x)%Z && (Time.hour x <? 24)%Z
  && (0 <=? Time.minute x)%Z && (Time.minute x <? 60)%Z
  && (0 <=? Time.second x)%Z && (Time.second x <? 60)%Z
  && (0 <=? Time.microsecond x)%Z && (Time.microsecond x <? 1000000)%Z.

Definition date_eqb (a b : Time.date) : bool :=
  (Time.year a =? Time.year b)%Z && (Time.month a =? Time.month b)%Z
  && (Time.day a =? Time.day b)%Z.

(** Lexicographic comparison of number pairs, [k] deciding a tie. *)
Fixpoint lex_compare (l : list (Z * Z)) (k : comparison) : comparison :=
  match l with
  | [] => k
  | (a, b) :: l' => match Z.compare a b with
                    | Eq => lex_compare l' k
                    | c => c
                    end
  end.

End Ui.

(* ------------------------------------------------------------------ *)
(** * [format_currency] and the column sort [SpaceApp._sort_tree] *)

Module Columns.
Import Ui.

(** Round half to even, as Python's float formatting rounds. *)
Definition round_half_even (q : Q) : Z :=
  let f := Qfloor q in
  match Qcompare (q - inject_Z f) (1 # 2) with
  | Lt => f
  | Gt => (f + 1)%Z
  | Eq => if Z.even f then f else (f + 1)%Z
  end.

(** The number of cents [:.2f] writes for [abs(x)]. *)
Definition cents (x : Q) : Z := round_half_even (Qabs x * 100).

(** Decimal digits of [n >= 0], least significant first. *)
Fixpoint digits_rev (fuel : nat) (n : Z) : text :=
  match fuel with
  | O => []
  | S f => if (n =? 0)%Z then [] else (48 + n mod 10)%Z :: digits_rev f (n / 10)
  end.

Definition int_digits_rev (n : Z) : text :=
  match n with
  | Z.pos p => digits_rev (Pos.size_nat p) n
  | _ => [48%Z]
  end.

(** The [,] option: a comma between groups of three digits, counted from
    the units (the list is least significant first). *)
Fixpoint group3 (l : text) : text :=
  match l with
  | a :: b :: c :: ((_ :: _) as rest) => a :: b :: c :: 44%Z :: group3 rest
  | _ => l
  end.

(** [f"{amount:,.2f}"] for a finite float. *)
Definition format_2f_grouped (x : Q) : text :=
  let n := cents x in
  (if Qle_bool 0 x then [] else [45%Z]) ++ rev (group3 (int_digits_rev (n / 100)))
  ++ [46; 48 + (n mod 100) / 10; 48 + n mod 10]%Z.

(** [format_currency(amount, rtl)] *)
Definition format_currency (amount : Q) (rtl : bool) : text :=
  let formatted := [69; 71; 80; 32]%Z ++ format_2f_grouped amount in
  if rtl then to_arabic_numerals formatted else formatted.

(** The amount the text of [format_currency x] shows. *)
Definition shown_amount (x : Q) : Q :=
  (if Qle_bool 0 x then inject_Z (cents x) else - inject_Z (cents x)) / 100.

(** [str.isspace()]: bidirectional class WS, B or S, or category Zs. *)
Definition is_py_space (c : Z) : bool :=
  (((9 <=? c) && (c <=? 13)) || ((28 <=? c) && (c <=? 32)) || (c =? 133)
   || (c =? 160) || (c =? 5760) || ((8192 <=? c) && (c <=? 8202))
   || (c =? 8232) || (c =? 8233) || (c =? 8239) || (c =? 8287) || (c =? 12288))%Z.

Fixpoint lstrip (t : text) : text :=
  match t with
  | c :: t' => if is_py_space c then lstrip t' else t
  | [] => []
  end.

(** [str.strip()] *)
Definition py_strip (t : text) : text := rev (lstrip (rev (lstrip t))).

Fixpoint is_prefix (p s : text) : bool :=
  match p, s with
  | [], _ => true
  | a :: p', b :: s' => (a =? b)%Z && is_prefix p' s'
  | _ :: _, [] => false
  end.

(** [s.replace(old, new)] for a non-empty [old]: left to right, without
    overlaps. *)
Fixpoint replace_go (fuel : nat) (old new s : text) : text :=
  match fuel with
  | O => s
  | S f =>
      match s with
      | [] => []
      | c :: s' =>
          if is_prefix old s then new ++ replace_go f old new (skipn (List.length old) s)
          else c :: replace_go f old new s'
      end
  end.

Definition py_replace (s old new : text) : text :=
  replace_go (List.length s) old new s.

(** The text handed to [float()] by [_sort_tree]:
    [value.replace(",", "").replace("EGP", "").strip()]. *)
Definition sort_key_text (v : text) : text :=
  py_strip (py_replace (py_replace v [44%Z] []) [69; 71; 80]%Z []).

(** Python's [<] on strings: code points, lexicographically. *)
Fixpoint text_ltb (a b : text) : bool :=
  match a, b with
  | [], [] => false
  | [], _ :: _ => true
  | _ :: _, [] => false
  | x :: a', y :: b' => (x <? y)%Z || ((x =? y)%Z && text_ltb a' b')
  end.

Section Sort.
Context {K A : Type}.
Variable ltb : K -> K -> bool.

(** [list.sort] is stable: an element goes after every element it is not
    smaller than. Insertion of the elements in order gives the same list as
    any stable sort. *)
Fixpoint insert_by (x : K * A) (l : list (K * A)) : list (K * A) :=
  match l with
  | [] => [x]
  | y :: l' => if ltb (fst x) (fst y) then x :: l else y :: insert_by x l'
  end.

Definition stable_sort (l : list (K * A)) : list (K * A) :=
  fold_left (fun acc x => insert_by x acc) l [].

End Sort.

Section SortTree.
Context {A : Type}.

(** Python's [float()] on a text, [None] being the [ValueError]. *)
Variable py_float : text -> option Q.

(** Python's [str.lower()]. *)
Variable lower : text -> text.

(** [data.sort(key=...)] computes every key first; one [ValueError] sends
    the sort to the [except] branch. *)
Fixpoint float_keys (data : list (text * A)) : option (list (Q * A)) :=
  match data with
  | [] => Some []
  | (v, a) :: d =>
      match py_float (sort_key_text v), float_keys d with
      | Some k, Some ks => Some ((k, a) :: ks)
      | _, _ => None
      end
  end.

(** [SpaceApp._sort_tree]: [data] holds, in display order, each row's
    value in the clicked column with the row; the result is the new order
    of the rows. *)
Definition sort_tree (data : list (text * A)) : list A :=
  match float_keys data with
  | Some ks => map snd (stable_sort (fun a b => negb (Qle_bool b a)) ks)
  | None => map snd (stable_sort text_ltb (map (fun '(v, a) => (lower v, a)) data))
  end.

End SortTree.

(** Decimal numerals, in ASCII or Arabic-Indic digits (Python's [float()]
    reads any Unicode decimal digit). *)
Definition is_dec_digit (c : Z) : bool := is_ascii_digit c || is_arabic_digit c.

Definition digit_value (c : Z) : Z :=
  if is_ascii_digit c then (c - 48)%Z else (c - 1632)%Z.

Definition digits_value (l : text) : Z :=
  fold_left (fun acc c => (10 * acc + digit_value c)%Z) l 0%Z.

Definition numeral (neg : bool) (ip fp : text) : text :=
  (if neg then [45%Z] else []) ++ ip ++ [46%Z] ++ fp.

Definition decimal_value (neg : bool) (ip fp : text) : Q :=
  let v := inject_Z (digits_value ip)
           + inject_Z (digits_value fp) / inject_Z (10 ^ Z.of_nat (List.length fp)) in
  if neg then - v else v.

(** What [_sort_tree] needs of [float()]: [-ddd.dd] and [ddd.dd] read as
    their decimal value. *)
Definition reads_decimals (py_float : text -> option Q) : Prop :=
  forall neg ip fp, ip <> [] -> forallb is_dec_digit ip = true ->
  forallb is_dec_digit fp = true ->
  py_float (numeral neg ip fp) = Some (decimal_value neg ip fp).

(** A reader of such numerals, refusing everything else. *)
Fixpoint split_dot (t : text) : text * option text :=
  match t with
  | [] => ([], None)
  | c :: t' => if (c =? 46)%Z then ([], Some t')
               else let '(ip, fp) := split_dot t' in (c :: ip, fp)
  end.

Definition decimal_reader (t : text) : option Q :=
  let '(neg, t1) := match t with
                    | c :: r => if (c =? 45)%Z then (true, r) else (false, t)
                    | [] => (false, t)
                    end in
  match split_dot t1 with
  | (ip, Some fp) =>
      if negb (match ip with [] => true | _ => false end)
         && forallb is_dec_digit ip && forallb is_dec_digit fp
      then Some (decimal_value neg ip fp) else None
  | (_, None) => None
  end.


(** ** Parts of a formatted amount *)

(** The two digit maps of [format_currency]: none, or [to_arabic_numerals]. *)
Definition digit_map_ok (g : Z -> Z) : Prop :=
  (forall c, is_ascii_digit c = false -> g c = c) /\
  (forall c, is_ascii_digit c = true ->
     is_dec_digit (g c) = true /\ digit_value (g c) = digit_value c /\
     is_py_space (g c) = false /\ g c <> 44%Z /\ g c <> 46%Z /\ g c <> 69%Z).

(** The digit map of the [rtl] flag of [format_currency]. *)
Definition rtl_map (rtl : bool) : Z -> Z := if rtl then translate_digit else (fun c => c).

(** A digit of a formatted amount: a decimal digit, and not a space, a
    comma, a point or an [E]. *)
Definition digit_char (c : Z) : bool :=
  is_dec_digit c && negb (is_py_space c) && negb (c =? 44)%Z && negb (c =? 46)%Z
  && negb (c =? 69)%Z.

Definition sign_text (x : Q) : text := if Qle_bool 0 x then [] else [45%Z].

(** The digits of the whole part of the shown amount, least significant first. *)
Definition int_part (x : Q) : text := int_digits_rev (cents x / 100).

Definition frac_part (x : Q) : text :=
  [48 + (cents x mod 100) / 10; 48 + cents x mod 10]%Z.

(** The value [float()] gives the key of [format_currency x rtl]. *)
Definition key_value (rtl : bool) (x : Q) : Q :=
  decimal_value (negb (Qle_bool 0 x)) (map (rtl_map rtl) (rev (int_part x)))
    (map (rtl_map rtl) (frac_part x)).

End Columns.

Module EngineFacts.
Import Engine.

Lemma anchored_init : anchored init.
Proof. unfold anchored; simpl; discriminate. Qed.

Lemma step_anchored (o : op) (t : Q) (s : StationState) :
  anchored s -> exists s', step o t s = Some s' /\ anchored s'.
Proof.
  unfold anchored; intros H.
  destruct o; simpl.
  - unfold start. destruct (running s) eqn:R; eexists; split; eauto.
    simpl; intros; eauto.
  - unfold pause. destruct (running s) eqn:R; simpl.
    + destruct (paused s) eqn:P; simpl.
      * eexists; split; [reflexivity|]. simpl; intros; eauto.
      * destruct (H eq_refl eq_refl) as [a Ha]; rewrite Ha; simpl.
        eexists; split; [reflexivity|]. simpl; discriminate.
    + eexists; split; [reflexivity|]. rewrite R; discriminate.
  - unfold stop. destruct (running s) eqn:R; simpl.
    + destruct (paused s) eqn:P; simpl.
      * eexists; split; [reflexivity|]. simpl; discriminate.
      * destruct (H eq_refl eq_refl) as [a Ha]; rewrite Ha; simpl.
        eexists; split; [reflexivity|]. simpl; discriminate.
    + eexists; split; [reflexivity|]. rewrite R; discriminate.
  - eexists; split; [reflexivity|]. simpl; discriminate.
Qed.

Lemma run_anchored (tr : list (op * Q)) (s : StationState) :
  anchored s -> exists s', run tr s = Some s' /\ anchored s'.
Proof.
  revert s; induction tr as [|[o t] tr IH]; intros s H; simpl.
  - eauto.
  - destruct (step_anchored o t s H) as [s' [E H']]. rewrite E. auto.
Qed.

(** No sequence of operations on a fresh station raises. *)
Lemma run_total (tr : list (op * Q)) : exists s, run tr init = Some s.
Proof. destruct (run_anchored tr init anchored_init) as [s [E _]]; eauto. Qed.

Lemma reachable_anchored (tr : list (op * Q)) (s : StationState) :
  run tr init = Some s -> anchored s.
Proof.
  intros E. destruct (run_anchored tr init anchored_init) as [s' [E' H]].
  rewrite E in E'. injection E' as ->. exact H.
Qed.

(** C1: [current_elapsed()] on any state reachable from a fresh station is
    the accumulated elapsed plus (now - anchor) when Running, and the
    accumulated elapsed unchanged when Paused or Stopped. *)
Theorem current_elapsed_spec (tr : list (op * Q)) (s : StationState) (now : Q) :
  run tr init = Some s ->
  (phase_of s = Running ->
     exists a, start_ts s = Some a /\
               current_elapsed now s = Some (elapsed s + (now - a))) /\
  (phase_of s <> Running -> current_elapsed now s = Some (elapsed s)).
Proof.
  intros E. pose proof (reachable_anchored tr s E) as H.
  unfold phase_of, current_elapsed, anchored in *.
  destruct (running s), (paused s); simpl; split; intros Hp;
    try discriminate; try congruence.
  destruct (H eq_refl eq_refl) as [a Ha]. exists a. rewrite Ha. auto.
Qed.

(** C2: with a non-decreasing clock ([t1 <= t2]), two successive queries
    of [current_elapsed()] on a reachable state give non-decreasing values
    while Running and the same value while Paused or Stopped. *)
Theorem current_elapsed_monotone (tr : list (op * Q)) (s : StationState)
    (t1 t2 : Q) :
  run tr init = Some s -> t1 <= t2 ->
  (phase_of s = Running ->
     exists e1 e2, current_elapsed t1 s = Some e1 /\
                   current_elapsed t2 s = Some e2 /\ e1 <= e2) /\
  (phase_of s <> Running -> current_elapsed t1 s = current_elapsed t2 s).
Proof.
  intros E Hle. pose proof (reachable_anchored tr s E) as H.
  unfold phase_of, current_elapsed, anchored in *.
  destruct (running s), (paused s); simpl; split; intros Hp;
    try discriminate; try congruence.
  destruct (H eq_refl eq_refl) as [a Ha]. rewrite Ha; simpl.
  do 2 eexists; split; [reflexivity|]; split; [reflexivity|]. lra.
Qed.

(** C4, as stated, fails: [pause()] from Running does not clear the anchor;
    [start_ts] keeps the start of the interval just folded in. *)
Lemma pause_keeps_anchor_counterexample :
  ~ (forall (s s' : StationState) (now : Q),
       phase_of s = Running -> pause now s = Some s' -> start_ts s' = None).
Proof.
  intros H.
  specialize (H (start 0 init) (mkState true true (Some 0) (0 + (5 - 0)) "") 5
                eq_refl eq_refl).
  discriminate H.
Qed.

(** C4 (amended): [pause()] from Running adds (now - anchor) to the
    accumulated elapsed and moves to Paused, leaving the stored anchor in
    place (it is not read while Paused: the live value is frozen); from
    Paused it sets anchor = now and returns to Running with the accumulated
    elapsed unchanged; from Stopped it does nothing. *)
Theorem pause_spec (s : StationState) (now : Q) :
  (forall a, phase_of s = Running -> start_ts s = Some a ->
     exists s', pause now s = Some s' /\ phase_of s' = Paused /\
       elapsed s' = elapsed s + (now - a) /\ start_ts s' = Some a /\
       customer_name s' = customer_name s /\
       forall t, current_elapsed t s' = Some (elapsed s + (now - a))) /\
  (phase_of s = Paused ->
     exists s', pause now s = Some s' /\ phase_of s' = Running /\
       elapsed s' = elapsed s /\ start_ts s' = Some now /\
       customer_name s' = customer_name s) /\
  (phase_of s = Stopped -> pause now s = Some s).
Proof.
  unfold phase_of, pause, current_elapsed.
  destruct (running s) eqn:R, (paused s) eqn:P; simpl;
    repeat split; intros; try discriminate;
    try (match goal with H : start_ts s = Some _ |- _ => rewrite H end; simpl);
    first [reflexivity | eexists; repeat split; reflexivity].
Qed.

(** C5, as stated, fails: after [start()], [stop()] and [start()] again
    with no [reset()], the accumulated elapsed is the first session's 10
    seconds, not the value 0 last set by [reset()] / [__init__]. *)
Lemma start_after_stop_counterexample :
  ~ (forall (tr : list (op * Q)) (s : StationState) (now : Q),
       run tr init = Some s -> phase_of s = Stopped ->
       elapsed (start now s) == 0).
Proof.
  intros H.
  specialize (H [(OStart, 0); (OStop, 10)] (mkState false false (Some 0) (0 + (10 - 0)) "")
                20 eq_refl eq_refl).
  simpl in H. discriminate H.
Qed.

(** C5 (amended): [start()] is a no-op when Running or Paused; from
    Stopped it moves to Running with anchor = now and leaves the
    accumulated elapsed unchanged, so a [stop()] then [start()] with no
    [reset()] continues from the stopped session's accumulated elapsed. *)
Theorem start_spec (s : StationState) (now : Q) :
  (phase_of s <> Stopped -> start now s = s) /\
  (phase_of s = Stopped ->
     phase_of (start now s) = Running /\ start_ts (start now s) = Some now /\
     elapsed (start now s) = elapsed s /\
     customer_name (start now s) = customer_name s) /\
  (forall a t1 s', phase_of s = Running -> start_ts s = Some a ->
     stop t1 s = Some s' -> elapsed (start now s') = elapsed s + (t1 - a)).
Proof.
  unfold phase_of, start, stop.
  destruct (running s) eqn:R, (paused s) eqn:P; simpl;
    repeat split; intros; try discriminate; try congruence.
  rewrite H0 in H1; simpl in H1. injection H1 as <-. reflexivity.
Qed.

(** C6: [reset()] from any state moves to Stopped with the accumulated
    elapsed 0, no anchor and an empty customer name, and
    [SpaceApp._reset_station] writes no row to any table. *)
Theorem reset_spec (s : StationState) (db : App.database) :
  App.reset_station s db = (mkState false false None 0 "", db) /\
  phase_of (fst (App.reset_station s db)) = Stopped /\
  elapsed (fst (App.reset_station s db)) = 0 /\
  customer_name (fst (App.reset_station s db)) = ""%string /\
  App.sessions (snd (App.reset_station s db)) = App.sessions db.
Proof. repeat split. Qed.

End EngineFacts.

(* ------------------------------------------------------------------ *)
(** * Properties of [_stop_station] and [_save_session] *)

Module StopFacts.
Import Engine App.

(** C3: [_stop_station] on a Running station folds (now - anchor) into the
    accumulated elapsed, then appends exactly one row to [sessions], whose
    duration is [int(elapsed)], whose rate is the station's [rate_var] at
    that moment and whose cost is [(elapsed / 3600) * rate]; on a Paused
    station the frozen elapsed is saved with no time added; on a Stopped
    station nothing changes and no row is written. *)
Theorem stop_station_spec (t tq : Q) (d1 d2 : Time.datetime) (st : station)
    (s : StationState) (db : database) :
  (forall a, phase_of s = Running -> Engine.start_ts s = Some a ->
     let e := elapsed s + (t - a) in
     exists s', stop_station t tq d1 d2 st s db =
       Some (s', mkDb (items db) (item_sales db) (cash_transactions db)
                  (sessions db ++
                   [mkSession (st_name st) (Engine.customer_name s)
                      (Time.now_iso d1) (Time.now_iso d2) (py_int e)
                      (rate_var st) ((e / 3600) * rate_var st)]))
       /\ phase_of s' = Stopped /\ elapsed s' = e) /\
  (phase_of s = Paused ->
     let e := elapsed s in
     exists s', stop_station t tq d1 d2 st s db =
       Some (s', mkDb (items db) (item_sales db) (cash_transactions db)
                  (sessions db ++
                   [mkSession (st_name st) (Engine.customer_name s)
                      (Time.now_iso d1) (Time.now_iso d2) (py_int e)
                      (rate_var st) ((e / 3600) * rate_var st)]))
       /\ phase_of s' = Stopped /\ elapsed s' = e) /\
  (phase_of s = Stopped -> stop_station t tq d1 d2 st s db = Some (s, db)).
Proof.
  unfold phase_of, stop_station, Engine.stop, current_elapsed.
  destruct (running s) eqn:R, (paused s) eqn:P; simpl;
    repeat split; intros; try discriminate;
    try (match goal with H : Engine.start_ts s = Some _ |- _ => rewrite H end; simpl);
    first [reflexivity | eexists; repeat split; reflexivity].
Qed.

(** C10, as stated, fails: the two timestamps of a session row come from
    two separate readings of the clock ([now_iso()] is called twice), so
    when the readings straddle a second boundary they differ. *)
Lemma session_timestamps_counterexample :
  ~ (forall (t tq : Q) (d1 d2 : Time.datetime) (st : station)
            (s s' : StationState) (db db' : database),
       stop_station t tq d1 d2 st s db = Some (s', db') ->
       forall r, In r (sessions db') -> App.start_ts r = end_ts r).
Proof.
  intros H.
  pose proof (H 5 5 (Time.mkDT (Time.mkDate 2026 10 19) 10 0 0 999999)
                    (Time.mkDT (Time.mkDate 2026 10 19) 10 0 1 0)
                    (mkStation "Table 1" 60) (start 0 init) _ empty_db _
                    eq_refl) as H'.
  simpl in H'. specialize (H' _ (or_introl eq_refl)).
  vm_compute in H'. discriminate H'.
Qed.

(** C10 (amended): a stop appends one row whose start and end timestamps
    are the two readings [d1], [d2] of the wall clock taken when the row is
    saved (so both record the moment of the stop, whatever the session's
    real start time or duration, and they are equal whenever the two
    readings fall in the same second), while its duration is
    [int(elapsed)] of the stopped session. When the second reading comes
    less than a second after the first, end minus start is 0 or 1 second,
    so it differs from the stored duration of any session of 2 seconds or
    more. *)
Theorem session_timestamps_spec (t tq : Q) (d1 d2 : Time.datetime)
    (st : station) (s s' : StationState) (db db' : database) :
  Engine.running s = true ->
  stop_station t tq d1 d2 st s db = Some (s', db') ->
  exists r, sessions db' = sessions db ++ [r] /\
    App.start_ts r = Time.now_iso d1 /\ end_ts r = Time.now_iso d2 /\
    duration_seconds r = py_int (elapsed s') /\
    (Time.same_second d1 d2 -> App.start_ts r = end_ts r) /\
    ((0 <= Time.microsecond d1 < 1000000)%Z ->
     (0 <= Time.microsecond d2 < 1000000)%Z ->
     (0 <= Time.reading_us d2 - Time.reading_us d1 < 1000000)%Z ->
     (0 <= Time.timestamp_seconds d2 - Time.timestamp_seconds d1 <= 1)%Z /\
     ((2 <= duration_seconds r)%Z ->
      (Time.timestamp_seconds d2 - Time.timestamp_seconds d1)%Z <> duration_seconds r)).
Proof.
  intros R E. unfold stop_station in E. rewrite R in E. simpl in E.
  destruct (Engine.stop t s) as [s1|] eqn:S; [|discriminate].
  assert (Hr : Engine.running s1 = false).
  { unfold Engine.stop in S. rewrite R in S. simpl in S.
    destruct (if negb (paused s) then _ else _); [|discriminate].
    injection S as <-. reflexivity. }
  unfold current_elapsed in E. rewrite Hr in E. simpl in E.
  injection E as <- <-.
  eexists. refine (conj eq_refl (conj eq_refl (conj eq_refl (conj eq_refl (conj _ _))))).
  - intros (Hd & Hh & Hm & Hs). unfold Time.now_iso, Time.isoformat_seconds.
    rewrite Hd, Hh, Hm, Hs. reflexivity.
  - intros M1 M2 Hr12. unfold Time.reading_us in Hr12. cbn [duration_seconds].
    split; [lia | intros D2; lia].
Qed.

End StopFacts.

(* ------------------------------------------------------------------ *)
(** * Properties of the sale flow and of the reports *)

Module SaleReportFacts.
Import App.

(** C9: a sale of an item found by [_sell_item] with quantity [q >= 1]
    appends exactly one row to [item_sales], stamped with [now_iso()], with
    total = price * q and no other table touched; a quantity [q < 1] is
    refused with the "Invalid" warning and appends no row. *)
Theorem sale_spec (db : database) (k : Z) (it : item) (q : Z)
    (now : Time.datetime) :
  find_item (items db) k = Some it ->
  sell_item db k = Some (name it, price it) /\
  ((1 <= q)%Z ->
     confirm k (price it) q now db =
       (Recorded, mkDb (items db)
                    (item_sales db ++
                     [mkSale (Time.now_iso now) k q (price it * inject_Z q)])
                    (cash_transactions db) (sessions db))) /\
  ((q < 1)%Z ->
     confirm k (price it) q now db =
       (Warning "Invalid" "Quantity must be at least 1.", db)).
Proof.
  intros F. unfold sell_item, confirm. rewrite F. split; [reflexivity|].
  split; intros Hq.
  - replace (q <=? 0)%Z with false by (symmetry; apply Z.leb_gt; lia).
    reflexivity.
  - replace (q <=? 0)%Z with true by (symmetry; apply Z.leb_le; lia).
    reflexivity.
Qed.

Lemma filter_none {A} (f : A -> bool) (l : list A) :
  (forall x, In x l -> f x = false) -> filter f l = [].
Proof.
  induction l as [|x l IH]; simpl; intros H; [reflexivity|].
  rewrite (H x (or_introl eq_refl)). apply IH. intros y Hy. apply H; auto.
Qed.

(** C8: the report's total revenue is the session sum plus the item-sales
    sum and does not depend on the cash table; every sum over no matching
    rows is 0 (not NULL); the report and the export of an empty database
    give 0 for all three figures. *)
Theorem report_totals (m : mode) (today : Time.date) (db : database)
    (rep : report) :
  build_report m today db = Some rep ->
  total_revenue rep = session_revenue rep + item_sales_total rep /\
  (forall cs rep',
     build_report m today (mkDb (items db) (item_sales db) cs (sessions db))
       = Some rep' -> total_revenue rep' = total_revenue rep) /\
  (forall p : string -> bool,
     ((forall r, In r (sessions db) -> p (start_ts r) = false) ->
        sessions_sum p db = 0) /\
     ((forall r, In r (item_sales db) -> p (sale_ts r) = false) ->
        sales_sum p db = 0) /\
     ((forall r, In r (cash_transactions db) -> p (cash_ts r) = false) ->
        cash_sum p db = 0)) /\
  build_report m today empty_db = Some (mkReport 0 0 0 0) /\
  export_report empty_db = [("Sessions", 0); ("Item Sales", 0); ("Cash Net", 0)]%string.
Proof.
  unfold build_report. intros E.
  destruct (report_window m today) as [[st e]|] eqn:W; [|discriminate].
  injection E as <-. simpl. repeat split.
  - intros cs rep' E'. injection E' as <-. reflexivity.
  - intros H. unfold sessions_sum. rewrite (filter_none _ _ H). reflexivity.
  - intros H. unfold sales_sum. rewrite (filter_none _ _ H). reflexivity.
  - intros H. unfold cash_sum. rewrite (filter_none _ _ H). reflexivity.
Qed.

End SaleReportFacts.

(* ------------------------------------------------------------------ *)
(** * ISO-8601 text orders as time does ([_build_report]'s windows) *)

Module IsoFacts.
Import Time.
Local Open Scope string_scope.

Lemma append_assoc_str (x y z : string) : (x ++ y) ++ z = x ++ (y ++ z).
Proof. induction x as [|c x IH]; simpl; congruence. Qed.

Lemma append_nil_str (x : string) : x ++ "" = x.
Proof. induction x as [|c x IH]; simpl; congruence. Qed.

Lemma length_append_str (x y : string) :
  String.length (x ++ y) = (String.length x + String.length y)%nat.
Proof. induction x as [|c x IH]; simpl; congruence. Qed.

Lemma ascii_compare_refl (c : ascii) : Ascii.compare c c = Eq.
Proof. unfold Ascii.compare. apply N.compare_refl. Qed.

Lemma compare_app_same (p x y : string) :
  String.compare (p ++ x) (p ++ y) = String.compare x y.
Proof.
  induction p as [|c p IH]; simpl; [reflexivity|].
  rewrite ascii_compare_refl. exact IH.
Qed.

(** Two strings of the same length that differ keep their order whatever
    follows them. *)
Lemma compare_app_neq (x y u v : string) :
  String.length x = String.length y -> String.compare x y <> Eq ->
  String.compare (x ++ u) (y ++ v) = String.compare x y.
Proof.
  revert y; induction x as [|a x IH]; intros [|b y] Hl Hne; simpl in *;
    try discriminate; [congruence|].
  destruct (Ascii.compare a b); auto.
Qed.

Lemma pad_app (w : nat) (n : Z) (acc : string) :
  pad w n acc = pad w n "" ++ acc.
Proof.
  revert n acc; induction w as [|w IH]; intros n acc; simpl; [reflexivity|].
  rewrite IH, (IH (n / 10)%Z (String _ "")), append_assoc_str. reflexivity.
Qed.

Lemma pad_length (w : nat) (n : Z) : String.length (pad w n "") = w.
Proof.
  revert n; induction w as [|w IH]; intros n; simpl; [reflexivity|].
  rewrite pad_app, length_append_str, IH. simpl. lia.
Qed.

Lemma digit_compare (a b : Z) :
  (0 <= a < 10)%Z -> (0 <= b < 10)%Z ->
  Ascii.compare (digit a) (digit b) = Z.compare a b.
Proof.
  intros Ha Hb.
  assert (a = 0 \/ a = 1 \/ a = 2 \/ a = 3 \/ a = 4 \/ a = 5 \/ a = 6 \/
          a = 7 \/ a = 8 \/ a = 9)%Z as Ea by lia.
  assert (b = 0 \/ b = 1 \/ b = 2 \/ b = 3 \/ b = 4 \/ b = 5 \/ b = 6 \/
          b = 7 \/ b = 8 \/ b = 9)%Z as Eb by lia.
  repeat destruct Ea as [-> | Ea]; repeat destruct Eb as [-> | Eb];
    subst; reflexivity.
Qed.

(** Comparing two naturals is comparing their quotients by 10, then their
    last digits. *)
Lemma Zcompare_decimal (a b : Z) :
  (0 <= a)%Z -> (0 <= b)%Z ->
  Z.compare a b =
  match Z.compare (a / 10) (b / 10) with
  | Eq => Z.compare (a mod 10) (b mod 10)
  | c => c
  end.
Proof.
  intros Ha Hb.
  pose proof (Z.div_mod a 10 ltac:(lia)) as Da.
  pose proof (Z.div_mod b 10 ltac:(lia)) as Db.
  pose proof (Z.mod_pos_bound a 10 ltac:(lia)) as Ma.
  pose proof (Z.mod_pos_bound b 10 ltac:(lia)) as Mb.
  destruct (Z.compare_spec (a / 10) (b / 10)) as [E|L|G].
  - destruct (Z.compare_spec (a mod 10) (b mod 10));
      [apply Z.compare_eq_iff | apply Z.compare_lt_iff | apply Z.compare_gt_iff];
      lia.
  - apply Z.compare_lt_iff. lia.
  - apply Z.compare_gt_iff. lia.
Qed.

(** Zero-padded decimals of the same width order as the numbers do. *)
Lemma pad_compare (w : nat) (a b : Z) :
  (0 <= a < 10 ^ Z.of_nat w)%Z -> (0 <= b < 10 ^ Z.of_nat w)%Z ->
  String.compare (pad w a "") (pad w b "") = Z.compare a b.
Proof.
  revert a b; induction w as [|w IH]; intros a b Ha Hb.
  - simpl in *. replace a with 0%Z by lia. replace b with 0%Z by lia.
    reflexivity.
  - rewrite Nat2Z.inj_succ, Z.pow_succ_r in Ha, Hb by lia.
    cbn [pad]. rewrite (pad_app w (a / 10)), (pad_app w (b / 10)).
    assert (Ba : (0 <= a / 10 < 10 ^ Z.of_nat w)%Z)
      by (split; [apply Z.div_pos | apply Z.div_lt_upper_bound]; lia).
    assert (Bb : (0 <= b / 10 < 10 ^ Z.of_nat w)%Z)
      by (split; [apply Z.div_pos | apply Z.div_lt_upper_bound]; lia).
    rewrite (Zcompare_decimal a b) by lia.
    destruct (Z.compare (a / 10) (b / 10)) eqn:C.
    + apply Z.compare_eq_iff in C. rewrite C, compare_app_same.
      cbn [String.compare].
      rewrite digit_compare by (apply Z.mod_pos_bound; lia).
      destruct (Z.compare (a mod 10) (b mod 10)); reflexivity.
    + rewrite compare_app_neq; rewrite ?pad_length, ?IH; auto; congruence.
    + rewrite compare_app_neq; rewrite ?pad_length, ?IH; auto; congruence.
Qed.

Lemma iso_date_length (d : date) : String.length (iso_date d) = 10%nat.
Proof.
  unfold iso_date, pad2, pad4.
  rewrite !length_append_str, !pad_length. reflexivity.
Qed.

Lemma valid_date_bounds (d : date) :
  valid_date d = true ->
  (1 <= year d <= 9999 /\ 1 <= month d <= 12 /\
   1 <= day d <= days_in_month (year d) (month d))%Z.
Proof.
  unfold valid_date. intros H.
  repeat match goal with
         | H : (_ && _) = true |- _ => apply andb_prop in H; destruct H
         | H : Z.leb _ _ = true |- _ => apply Z.leb_le in H
         end.
  lia.
Qed.

Lemma days_in_month_bounds (y m : Z) : (28 <= days_in_month y m <= 31)%Z.
Proof.
  unfold days_in_month.
  destruct (m =? 2)%Z, (is_leap y),
    ((m =? 4) || (m =? 6) || (m =? 9) || (m =? 11))%Z; lia.
Qed.

Lemma pad2_compare (a b : Z) :
  (0 <= a < 100)%Z -> (0 <= b < 100)%Z ->
  String.compare (pad2 a) (pad2 b) = Z.compare a b.
Proof. intros; apply pad_compare; simpl; lia. Qed.

Lemma pad4_compare (a b : Z) :
  (0 <= a < 10000)%Z -> (0 <= b < 10000)%Z ->
  String.compare (pad4 a) (pad4 b) = Z.compare a b.
Proof. intros; apply pad_compare; simpl; lia. Qed.

Lemma pad2_length (a : Z) : String.length (pad2 a) = 2%nat.
Proof. apply pad_length. Qed.

Lemma pad4_length (a : Z) : String.length (pad4 a) = 4%nat.
Proof. apply pad_length. Qed.

(** The day after a valid date has a larger ISO date text. *)
Lemma next_date_iso_gt (d d' : date) :
  valid_date d = true -> next_date d = Some d' ->
  String.compare (iso_date d') (iso_date d) = Gt.
Proof.
  intros V N. pose proof (valid_date_bounds d V) as B.
  pose proof (days_in_month_bounds (year d) (month d)) as Dm.
  destruct d as [y m dd]; cbn [year month day] in *.
  unfold next_date in N; cbn [year month day] in N.
  unfold iso_date; cbn [year month day].
  destruct (dd <? days_in_month y m)%Z eqn:E1.
  - injection N as <-; cbn [year month day].
    apply Z.ltb_lt in E1.
    rewrite !compare_app_same, pad2_compare by lia.
    apply Z.compare_gt_iff; lia.
  - destruct (m <? 12)%Z eqn:E2.
    + injection N as <-; cbn [year month day].
      apply Z.ltb_lt in E2.
      rewrite compare_app_same. cbn [append String.compare].
      rewrite ascii_compare_refl.
      rewrite compare_app_neq by (rewrite ?pad2_length, ?pad2_compare by lia;
                                  first [reflexivity | apply Z.compare_gt_iff in E2; lia
                                        | intros C; apply Z.compare_eq_iff in C; lia]).
      rewrite pad2_compare by lia. apply Z.compare_gt_iff; lia.
    + destruct (y <? 9999)%Z eqn:E3; [|discriminate].
      injection N as <-; cbn [year month day].
      apply Z.ltb_lt in E3.
      rewrite compare_app_neq.
      * rewrite pad4_compare by lia. apply Z.compare_gt_iff; lia.
      * rewrite !pad4_length; reflexivity.
      * rewrite pad4_compare by lia. intros C; apply Z.compare_eq_iff in C; lia.
Qed.

(** The two ends of the daily window as text. *)
Lemma daily_window_text (d : date) :
  isoformat (midnight d) = iso_date d ++ "T00:00:00" /\
  isoformat (combine_max d) = iso_date d ++ "T23:59:59.999999".
Proof.
  unfold isoformat, isoformat_seconds, midnight, combine_max.
  cbn [dt_date hour minute second microsecond].
  rewrite !append_assoc_str. split; f_equal; reflexivity.
Qed.

Lemma add_days_add (a b : nat) (d : date) :
  add_days (a + b) d =
  match add_days a d with Some d' => add_days b d' | None => None end.
Proof.
  revert d; induction a as [|a IH]; intros d; [reflexivity|].
  simpl. destruct (next_date d); auto.
Qed.

(** Adding days inside one month only moves the day. *)
Lemma add_days_within (n : nat) (y m dd : Z) :
  (dd + Z.of_nat n <= days_in_month y m)%Z ->
  add_days n (mkDate y m dd) = Some (mkDate y m (dd + Z.of_nat n)).
Proof.
  revert dd; induction n as [|n IH]; intros dd H.
  - simpl. rewrite Z.add_0_r. reflexivity.
  - cbn [add_days]. unfold next_date; cbn [year month day].
    replace (dd <? days_in_month y m)%Z with true
      by (symmetry; apply Z.ltb_lt; lia).
    rewrite IH by lia. f_equal. f_equal. lia.
Qed.

(** [datetime(y, m, 1) + timedelta(days=32)] lands in the following month. *)
Lemma add_32_days (y m : Z) :
  (1 <= y <= 9999)%Z -> (1 <= m <= 12)%Z -> (y < 9999 \/ m < 12)%Z ->
  exists k, add_days 32 (mkDate y m 1) =
    Some (if (m <? 12)%Z then mkDate y (m + 1) k else mkDate (y + 1) 1 k).
Proof.
  intros Hy Hm Hym.
  pose proof (days_in_month_bounds y m) as Dm.
  set (D := days_in_month y m) in *.
  replace 32%nat with (Z.to_nat (D - 1) + (1 + Z.to_nat (32 - D)))%nat
    by lia.
  rewrite add_days_add, add_days_within by lia.
  replace (1 + Z.of_nat (Z.to_nat (D - 1)))%Z with D by lia.
  rewrite (add_days_add 1). cbn [add_days].
  unfold next_date; cbn [year month day].
  change (days_in_month y m) with D. rewrite Z.ltb_irrefl.
  destruct (m <? 12)%Z eqn:E.
  - exists (1 + Z.of_nat (Z.to_nat (32 - D)))%Z.
    apply add_days_within.
    pose proof (days_in_month_bounds y (m + 1)). lia.
  - replace (y <? 9999)%Z with true
      by (symmetry; apply Z.ltb_lt; apply Z.ltb_ge in E; lia).
    exists (1 + Z.of_nat (Z.to_nat (32 - D)))%Z.
    apply add_days_within.
    pose proof (days_in_month_bounds (y + 1) 1). lia.
Qed.

(** [_build_report("monthly")]: from the first instant of the month to
    23:59:59 of its last day, unless the month is December 9999, where
    [+ timedelta(days=32)] overflows. *)
Lemma monthly_window (today : date) :
  valid_date today = true -> (year today < 9999 \/ month today < 12)%Z ->
  App.report_window App.Monthly today =
  Some (midnight (mkDate (year today) (month today) 1),
        mkDT (mkDate (year today) (month today)
                     (days_in_month (year today) (month today))) 23 59 59 0).
Proof.
  intros V Hym. pose proof (valid_date_bounds today V) as B.
  destruct today as [y m dd]; cbn [year month day] in *.
  destruct (add_32_days y m ltac:(lia) ltac:(lia) Hym) as [k Hk].
  unfold App.report_window, dt_add_days, midnight;
    cbn [dt_date year month day hour minute second microsecond].
  rewrite Hk.
  destruct (m <? 12)%Z eqn:E; unfold dt_sub_second, prev_date;
    cbn [dt_date hour minute second microsecond year month day].
  - apply Z.ltb_lt in E.
    replace (1 <? m + 1)%Z with true by (symmetry; apply Z.ltb_lt; lia).
    replace (m + 1 - 1)%Z with m by lia. reflexivity.
  - apply Z.ltb_ge in E. replace m with 12%Z by lia.
    replace (1 <? y + 1)%Z with true by (symmetry; apply Z.ltb_lt; lia).
    replace (y + 1 - 1)%Z with y by lia. reflexivity.
Qed.

Lemma sessions_sum_snoc (p : string -> bool) (db : App.database) (r : App.session) :
  App.sessions_sum p (App.mkDb (App.items db) (App.item_sales db)
                        (App.cash_transactions db) (App.sessions db ++ [r])) =
  if p (App.start_ts r) then App.sessions_sum p db + App.cost r
  else App.sessions_sum p db.
Proof.
  unfold App.sessions_sum; cbn [App.sessions].
  rewrite filter_app. cbn [filter].
  destruct (p (App.start_ts r)); [|rewrite app_nil_r; reflexivity].
  rewrite map_app.
  destruct (map App.cost (filter (fun r0 => p (App.start_ts r0)) (App.sessions db)))
    as [|c l]; [reflexivity|].
  cbn [app App.sql_sum App.coalesce0].
  rewrite app_comm_cons, fold_left_app. reflexivity.
Qed.

(** C7: the daily window runs from [today] 00:00:00 to [today]
    23:59:59.999999 ([dt.time.max]); a session whose stored start timestamp
    is 23:59:59 of the report day adds its cost to the daily session sum,
    and one stamped 00:00:00 of the next day adds nothing; the monthly
    window is the first day of the following month minus one second, i.e.
    it ends at 23:59:59 of the month's last day (for any month but
    December 9999, where Python's date arithmetic overflows). *)
Theorem report_windows (today : date) :
  valid_date today = true ->
  App.report_window App.Daily today = Some (midnight today, combine_max today) /\
  isoformat (midnight today) = iso_date today ++ "T00:00:00" /\
  isoformat (combine_max today) = iso_date today ++ "T23:59:59.999999" /\
  (forall (db : App.database) (r : App.session) (us : Z),
     App.start_ts r = now_iso (mkDT today 23 59 59 us) ->
     exists rep rep',
       App.build_report App.Daily today db = Some rep /\
       App.build_report App.Daily today
         (App.mkDb (App.items db) (App.item_sales db)
                   (App.cash_transactions db) (App.sessions db ++ [r])) = Some rep' /\
       App.session_revenue rep' = App.session_revenue rep + App.cost r) /\
  (forall (db : App.database) (r : App.session) (d' : date),
     next_date today = Some d' ->
     App.start_ts r = now_iso (midnight d') ->
     exists rep rep',
       App.build_report App.Daily today db = Some rep /\
       App.build_report App.Daily today
         (App.mkDb (App.items db) (App.item_sales db)
                   (App.cash_transactions db) (App.sessions db ++ [r])) = Some rep' /\
       App.session_revenue rep' = App.session_revenue rep) /\
  ((year today < 9999 \/ month today < 12)%Z ->
     exists next_month,
       dt_add_days 32 (midnight (mkDate (year today) (month today) 1)) = Some next_month /\
       App.report_window App.Monthly today =
       Some (midnight (mkDate (year today) (month today) 1),
             mkDT (mkDate (year today) (month today)
                          (days_in_month (year today) (month today))) 23 59 59 0)).
Proof.
  intros V. destruct (daily_window_text today) as [Lo Hi].
  split; [reflexivity|]. split; [exact Lo|]. split; [exact Hi|].
  split; [|split].
  - intros db r us Hr. do 2 eexists. split; [reflexivity|]. split; [reflexivity|].
    cbn [App.session_revenue]. rewrite sessions_sum_snoc.
    replace (between (App.start_ts r) (isoformat (midnight today))
                     (isoformat (combine_max today))) with true; [reflexivity|].
    symmetry. rewrite Hr, Lo, Hi. unfold between, now_iso, isoformat_seconds.
    cbn [dt_date hour minute second].
    rewrite !compare_app_same. reflexivity.
  - intros db r d' N Hr. do 2 eexists. split; [reflexivity|]. split; [reflexivity|].
    cbn [App.session_revenue]. rewrite sessions_sum_snoc.
    replace (between (App.start_ts r) (isoformat (midnight today))
                     (isoformat (combine_max today))) with false; [reflexivity|].
    symmetry. rewrite Hr, Hi. unfold between, now_iso, isoformat_seconds.
    cbn [dt_date midnight hour minute second].
    rewrite compare_app_neq, next_date_iso_gt by
      (rewrite ?iso_date_length, ?next_date_iso_gt by assumption; congruence).
    apply andb_false_r.
  - intros Hym. pose proof (valid_date_bounds today V) as B.
    destruct (add_32_days (year today) (month today) ltac:(lia) ltac:(lia) Hym)
      as [k Hk].
    eexists; split; [unfold dt_add_days; cbn [dt_date midnight]; rewrite Hk; reflexivity|].
    apply monthly_window; assumption.
Qed.

End IsoFacts.

(* ------------------------------------------------------------------ *)
(** * The theorems at concrete inputs *)

Module Witnesses.
Import Engine.

Local Open Scope string_scope.

(** Start at 0, pause at 4, resume at 6. *)
Lemma current_elapsed_spec_witness :
  run [(OStart, 0); (OPause, 4); (OPause, 6)] init =
    Some (mkState true false (Some 6) 4 "") /\
  (phase_of (mkState true false (Some 6) 4 "") = Running ->
     exists a, start_ts (mkState true false (Some 6) 4 "") = Some a /\
       current_elapsed 10 (mkState true false (Some 6) 4 "") =
       Some (elapsed (mkState true false (Some 6) 4 "") + (10 - a))) /\
  (phase_of (mkState true false (Some 6) 4 "") <> Running ->
     current_elapsed 10 (mkState true false (Some 6) 4 "") =
     Some (elapsed (mkState true false (Some 6) 4 ""))).
Proof.
  split; [reflexivity|].
  apply (EngineFacts.current_elapsed_spec [(OStart, 0); (OPause, 4); (OPause, 6)]).
  reflexivity.
Defined.

Lemma current_elapsed_monotone_witness :
  run [(OStart, 0); (OPause, 4); (OPause, 6)] init =
    Some (mkState true false (Some 6) 4 "") /\ 7 <= 9 /\
  exists e1 e2, current_elapsed 7 (mkState true false (Some 6) 4 "") = Some e1 /\
                current_elapsed 9 (mkState true false (Some 6) 4 "") = Some e2 /\
                e1 <= e2.
Proof.
  assert (R : run [(OStart, 0); (OPause, 4); (OPause, 6)] init =
                Some (mkState true false (Some 6) 4 "")) by reflexivity.
  assert (L : 7 <= 9) by (unfold Qle; simpl; lia).
  split; [exact R|]. split; [exact L|].
  apply (proj1 (EngineFacts.current_elapsed_monotone _ _ 7 9 R L)).
  reflexivity.
Defined.

Lemma stop_station_spec_witness :
  phase_of (start 0 init) = Running /\ start_ts (start 0 init) = Some 0 /\
  exists s' db',
    App.stop_station 90 90 (Time.mkDT (Time.mkDate 2026 10 19) 12 1 30 5)
      (Time.mkDT (Time.mkDate 2026 10 19) 12 1 30 9)
      (App.mkStation "Table 1" 60) (start 0 init) App.empty_db = Some (s', db') /\
    phase_of s' = Stopped /\ elapsed s' = elapsed (start 0 init) + (90 - 0).
Proof.
  split; [reflexivity|]. split; [reflexivity|].
  destruct (proj1 (StopFacts.stop_station_spec 90 90
              (Time.mkDT (Time.mkDate 2026 10 19) 12 1 30 5)
              (Time.mkDT (Time.mkDate 2026 10 19) 12 1 30 9)
              (App.mkStation "Table 1" 60) (start 0 init) App.empty_db)
              0 eq_refl eq_refl) as [s' [E [P El]]].
  eexists s', _. split; [exact E|]. split; assumption.
Defined.

Lemma pause_spec_witness :
  phase_of (start 0 init) = Running /\ start_ts (start 0 init) = Some 0 /\
  exists s', pause 5 (start 0 init) = Some s' /\ phase_of s' = Paused /\
    start_ts s' = Some 0.
Proof.
  split; [reflexivity|]. split; [reflexivity|].
  destruct (proj1 (EngineFacts.pause_spec (start 0 init) 5) 0 eq_refl eq_refl)
    as [s' (E & P & _ & A & _)].
  exists s'. auto.
Defined.

Lemma start_spec_witness :
  phase_of (start 0 init) = Running /\ start_ts (start 0 init) = Some 0 /\
  stop 10 (start 0 init) = Some (mkState false false (Some 0) 10 "") /\
  elapsed (start 20 (mkState false false (Some 0) 10 "")) =
    elapsed (start 0 init) + (10 - 0).
Proof.
  split; [reflexivity|]. split; [reflexivity|].
  assert (E : stop 10 (start 0 init) = Some (mkState false false (Some 0) 10 ""))
    by reflexivity.
  split; [exact E|].
  exact (proj2 (proj2 (EngineFacts.start_spec (start 0 init) 20)) 0 10 _
           eq_refl eq_refl E).
Defined.

Lemma report_windows_witness :
  Time.valid_date (Time.mkDate 2026 10 19) = true /\
  Time.next_date (Time.mkDate 2026 10 19) = Some (Time.mkDate 2026 10 20) /\
  exists rep rep',
    App.build_report App.Daily (Time.mkDate 2026 10 19) App.empty_db = Some rep /\
    App.build_report App.Daily (Time.mkDate 2026 10 19)
      (App.mkDb [] [] [] ([] ++ [App.mkSession "Table 1" ""
         (Time.now_iso (Time.midnight (Time.mkDate 2026 10 20)))
         (Time.now_iso (Time.midnight (Time.mkDate 2026 10 20))) 3600 60 60]))
      = Some rep' /\
    App.session_revenue rep' = App.session_revenue rep.
Proof.
  assert (V : Time.valid_date (Time.mkDate 2026 10 19) = true) by reflexivity.
  assert (N : Time.next_date (Time.mkDate 2026 10 19) = Some (Time.mkDate 2026 10 20))
    by reflexivity.
  split; [exact V|]. split; [exact N|].
  exact (proj1 (proj2 (proj2 (proj2 (proj2 (IsoFacts.report_windows _ V)))))
           App.empty_db
           (App.mkSession "Table 1" ""
              (Time.now_iso (Time.midnight (Time.mkDate 2026 10 20)))
              (Time.now_iso (Time.midnight (Time.mkDate 2026 10 20))) 3600 60 60)
           _ N eq_refl).
Defined.

Lemma report_totals_witness :
  App.build_report App.Monthly (Time.mkDate 2024 2 10) App.empty_db =
    Some (App.mkReport 0 0 0 0) /\
  App.export_report App.empty_db =
    [("Sessions", 0); ("Item Sales", 0); ("Cash Net", 0)].
Proof.
  assert (E : App.build_report App.Monthly (Time.mkDate 2024 2 10) App.empty_db =
              Some (App.mkReport 0 0 0 0)) by reflexivity.
  split; [exact E|].
  exact (proj2 (proj2 (proj2 (proj2 (SaleReportFacts.report_totals _ _ _ _ E))))).
Defined.

(** Item 7 priced 25.00, sold 3 at a time: total 75.00; quantity 0 is
    refused. *)
Lemma sale_spec_witness :
  App.find_item [App.mkItem 7 "Cola" 25] 7 = Some (App.mkItem 7 "Cola" 25) /\
  App.confirm 7 25 3 (Time.mkDT (Time.mkDate 2026 10 19) 18 0 0 0)
    (App.mkDb [App.mkItem 7 "Cola" 25] [] [] []) =
    (App.Recorded, App.mkDb [App.mkItem 7 "Cola" 25]
       ([] ++ [App.mkSale "2026-10-19T18:00:00" 7 3 (25 * inject_Z 3)]) [] []) /\
  25 * inject_Z 3 == 75 /\
  App.confirm 7 25 0 (Time.mkDT (Time.mkDate 2026 10 19) 18 0 0 0)
    (App.mkDb [App.mkItem 7 "Cola" 25] [] [] []) =
    (App.Warning "Invalid" "Quantity must be at least 1.",
     App.mkDb [App.mkItem 7 "Cola" 25] [] [] []).
Proof.
  assert (F : App.find_item [App.mkItem 7 "Cola" 25] 7 = Some (App.mkItem 7 "Cola" 25))
    by reflexivity.
  destruct (SaleReportFacts.sale_spec (App.mkDb [App.mkItem 7 "Cola" 25] [] [] [])
              7 _ 3 (Time.mkDT (Time.mkDate 2026 10 19) 18 0 0 0) F) as [_ [H1 _]].
  destruct (SaleReportFacts.sale_spec (App.mkDb [App.mkItem 7 "Cola" 25] [] [] [])
              7 _ 0 (Time.mkDT (Time.mkDate 2026 10 19) 18 0 0 0) F) as [_ [_ H2]].
  split; [exact F|]. split; [exact (H1 ltac:(lia))|].
  split; [reflexivity|]. exact (H2 ltac:(lia)).
Defined.

Lemma session_timestamps_spec_witness :
  running (start 0 init) = true /\
  exists s' db',
    App.stop_station 90 90 (Time.mkDT (Time.mkDate 2026 10 19) 12 1 30 999999)
      (Time.mkDT (Time.mkDate 2026 10 19) 12 1 31 2)
      (App.mkStation "Table 1" 60) (start 0 init) App.empty_db = Some (s', db') /\
    exists r, App.sessions db' = ([] ++ [r])%list /\
      App.start_ts r = "2026-10-19T12:01:30" /\ App.end_ts r = "2026-10-19T12:01:31" /\
      App.duration_seconds r = 90%Z /\
      (Time.timestamp_seconds (Time.mkDT (Time.mkDate 2026 10 19) 12 1 31 2)
       - Time.timestamp_seconds (Time.mkDT (Time.mkDate 2026 10 19) 12 1 30 999999))%Z
      <> App.duration_seconds r.
Proof.
  split; [reflexivity|].
  do 2 eexists. split; [reflexivity|].
  destruct (StopFacts.session_timestamps_spec 90 90
              (Time.mkDT (Time.mkDate 2026 10 19) 12 1 30 999999)
              (Time.mkDT (Time.mkDate 2026 10 19) 12 1 31 2)
              (App.mkStation "Table 1" 60) (start 0 init) _ App.empty_db _
              eq_refl eq_refl) as [r (Hs & Hst & Hen & Hd & _ & Hgap)].
  exists r. split; [exact Hs|]. split; [exact Hst|]. split; [exact Hen|].
  split; [exact Hd|].
  assert (M : (0 <= Time.reading_us (Time.mkDT (Time.mkDate 2026 10 19) 12 1 31 2)
                 - Time.reading_us (Time.mkDT (Time.mkDate 2026 10 19) 12 1 30 999999)
                 < 1000000)%Z).
  { match goal with |- (0 <= ?e < _)%Z =>
      let v := eval vm_compute in e in change e with v end. lia. }
  destruct (Hgap ltac:(cbn; lia) ltac:(cbn; lia) M) as [_ G].
  apply G. assert (D : App.duration_seconds r = 90%Z) by exact Hd. rewrite D. lia.
Defined.

End Witnesses.

(* ------------------------------------------------------------------ *)
(** * Which rows the report windows count *)

Module WindowFacts.
Import Time Ui.
Local Open Scope string_scope.

Lemma compare_pad_app (w : nat) (a b : Z) (u v : string) :
  (0 <= a < 10 ^ Z.of_nat w)%Z -> (0 <= b < 10 ^ Z.of_nat w)%Z ->
  String.compare (pad w a "" ++ u) (pad w b "" ++ v) =
  match Z.compare a b with Eq => String.compare u v | c => c end.
Proof.
  intros Ha Hb. destruct (Z.compare a b) eqn:C.
  - apply Z.compare_eq_iff in C. subst b. apply IsoFacts.compare_app_same.
  - rewrite IsoFacts.compare_app_neq, IsoFacts.pad_compare;
      rewrite ?IsoFacts.pad_length, ?IsoFacts.pad_compare; auto; congruence.
  - rewrite IsoFacts.compare_app_neq, IsoFacts.pad_compare;
      rewrite ?IsoFacts.pad_length, ?IsoFacts.pad_compare; auto; congruence.
Qed.

Definition fields_in_range (x : datetime) : Prop :=
  (0 <= year (dt_date x) < 10000 /\ 0 <= month (dt_date x) < 100 /\
   0 <= day (dt_date x) < 100 /\ 0 <= hour x < 100 /\
   0 <= minute x < 100 /\ 0 <= second x < 100)%Z.

Ltac lex_step :=
  rewrite compare_pad_app by (simpl; lia); cbn [lex_compare];
  match goal with |- context [Z.compare ?a ?b] =>
    destruct (Z.compare a b); [|reflexivity|reflexivity] end.

(** Second-precision ISO texts order as the tuples
    (year, month, day, hour, minute, second) do. *)
Lemma iso_seconds_compare (x y : datetime) (u v : string) :
  fields_in_range x -> fields_in_range y ->
  String.compare (isoformat_seconds x ++ u) (isoformat_seconds y ++ v) =
  lex_compare [(year (dt_date x), year (dt_date y));
               (month (dt_date x), month (dt_date y));
               (day (dt_date x), day (dt_date y));
               (hour x, hour y); (minute x, minute y); (second x, second y)]
              (String.compare u v).
Proof.
  unfold fields_in_range. intros Hx Hy.
  unfold isoformat_seconds, iso_date, pad2, pad4.
  rewrite !IsoFacts.append_assoc_str.
  lex_step; rewrite IsoFacts.compare_app_same.
  lex_step; rewrite IsoFacts.compare_app_same.
  lex_step; rewrite IsoFacts.compare_app_same.
  lex_step; rewrite IsoFacts.compare_app_same.
  lex_step; rewrite IsoFacts.compare_app_same.
  lex_step. reflexivity.
Qed.

Lemma lex_compare_app (p r : list (Z * Z)) (k : comparison) :
  lex_compare (p ++ r) k =
  match lex_compare p Eq with Eq => lex_compare r k | c => c end.
Proof.
  induction p as [|[a b] p IH]; [reflexivity|].
  cbn [app lex_compare]. destruct (Z.compare a b); auto.
Qed.

Lemma lex_compare_3 (a b c : Z * Z) (r : list (Z * Z)) (k : comparison) :
  lex_compare (a :: b :: c :: r) k =
  match lex_compare [a; b; c] Eq with Eq => lex_compare r k | o => o end.
Proof. exact (lex_compare_app [a; b; c] r k). Qed.

Lemma lex_compare_2 (a b : Z * Z) (r : list (Z * Z)) (k : comparison) :
  lex_compare (a :: b :: r) k =
  match lex_compare [a; b] Eq with Eq => lex_compare r k | o => o end.
Proof. exact (lex_compare_app [a; b] r k). Qed.

Lemma lex_compare_not_lt (l : list (Z * Z)) (k : comparison) :
  Forall (fun '(a, b) => b <= a)%Z l -> k <> Lt -> lex_compare l k <> Lt.
Proof.
  induction 1 as [|[a b] l Hab _ IH]; intros Hk; [exact Hk|].
  cbn [lex_compare]. destruct (Z.compare_spec a b); try discriminate; auto; lia.
Qed.

Lemma lex_compare_not_gt (l : list (Z * Z)) (k : comparison) :
  Forall (fun '(a, b) => a <= b)%Z l -> k <> Gt -> lex_compare l k <> Gt.
Proof.
  induction 1 as [|[a b] l Hab _ IH]; intros Hk; [exact Hk|].
  cbn [lex_compare]. destruct (Z.compare_spec a b); try discriminate; auto; lia.
Qed.

Lemma lex_compare_eq (l : list (Z * Z)) :
  lex_compare l Eq = Eq <-> Forall (fun '(a, b) => a = b) l.
Proof.
  induction l as [|[a b] l IH]; [split; auto|].
  cbn [lex_compare]. rewrite Forall_cons_iff, <- IH.
  destruct (Z.compare_spec a b) as [C|C|C]; split; intros Hq; try discriminate;
    try tauto; lia.
Qed.

Lemma valid_datetime_bounds (x : datetime) :
  valid_datetime x = true ->
  (1 <= year (dt_date x) <= 9999 /\ 1 <= month (dt_date x) <= 12 /\
   1 <= day (dt_date x) <= days_in_month (year (dt_date x)) (month (dt_date x)) /\
   0 <= hour x < 24 /\ 0 <= minute x < 60 /\ 0 <= second x < 60)%Z.
Proof.
  unfold valid_datetime. intros H.
  repeat match goal with
         | H : (_ && _) = true |- _ => apply andb_prop in H; destruct H
         | H : Z.leb _ _ = true |- _ => apply Z.leb_le in H
         | H : Z.ltb _ _ = true |- _ => apply Z.ltb_lt in H
         end.
  pose proof (IsoFacts.valid_date_bounds _ H). lia.
Qed.

Lemma between_lex (x lo hi : datetime) (ulo uhi : string) :
  fields_in_range x -> fields_in_range lo -> fields_in_range hi ->
  between (now_iso x) (isoformat_seconds lo ++ ulo) (isoformat_seconds hi ++ uhi) =
  match lex_compare [(year (dt_date x), year (dt_date lo));
               (month (dt_date x), month (dt_date lo));
               (day (dt_date x), day (dt_date lo));
               (hour x, hour lo); (minute x, minute lo); (second x, second lo)]
              (String.compare "" ulo) with Lt => false | _ => true end &&
  match lex_compare [(year (dt_date x), year (dt_date hi));
               (month (dt_date x), month (dt_date hi));
               (day (dt_date x), day (dt_date hi));
               (hour x, hour hi); (minute x, minute hi); (second x, second hi)]
              (String.compare "" uhi) with Gt => false | _ => true end.
Proof.
  intros Hx Hlo Hhi. unfold between, now_iso.
  rewrite <- (IsoFacts.append_nil_str (isoformat_seconds x)).
  rewrite !iso_seconds_compare by assumption. reflexivity.
Qed.

Lemma date_eqb_lex (a b : date) :
  date_eqb a b =
  match lex_compare [(year a, year b); (month a, month b); (day a, day b)] Eq
  with Eq => true | _ => false end.
Proof.
  unfold date_eqb. cbn [lex_compare].
  destruct (Z.compare_spec (year a) (year b)) as [E|E|E];
    [rewrite (proj2 (Z.eqb_eq _ _) E) | rewrite (proj2 (Z.eqb_neq _ _)) by lia;
     reflexivity | rewrite (proj2 (Z.eqb_neq _ _)) by lia; reflexivity].
  destruct (Z.compare_spec (month a) (month b)) as [F|F|F];
    [rewrite (proj2 (Z.eqb_eq _ _) F) | rewrite (proj2 (Z.eqb_neq _ _)) by lia;
     reflexivity | rewrite (proj2 (Z.eqb_neq _ _)) by lia; reflexivity].
  destruct (Z.compare_spec (day a) (day b)) as [G|G|G];
    [rewrite (proj2 (Z.eqb_eq _ _) G) | rewrite (proj2 (Z.eqb_neq _ _)) by lia
    | rewrite (proj2 (Z.eqb_neq _ _)) by lia]; reflexivity.
Qed.

(** The daily window of [today] holds the [now_iso] stamp of a reading of the
    clock exactly when that reading falls on [today]. *)
Lemma daily_membership (x : datetime) (today : date) :
  valid_datetime x = true -> valid_date today = true ->
  between (now_iso x) (isoformat (midnight today)) (isoformat (combine_max today))
  = date_eqb (dt_date x) today.
Proof.
  intros Vx Vt. pose proof (valid_datetime_bounds x Vx) as B.
  pose proof (IsoFacts.valid_date_bounds today Vt) as Bt.
  pose proof (IsoFacts.days_in_month_bounds (year today) (month today)).
  pose proof (IsoFacts.days_in_month_bounds (year (dt_date x)) (month (dt_date x))).
  unfold isoformat, midnight, combine_max. cbn [microsecond].
  change (0 =? 0)%Z with true. change (999999 =? 0)%Z with false.
  cbv iota.
  rewrite between_lex by (unfold fields_in_range; cbn [dt_date hour minute second]; lia).
  cbn [dt_date hour minute second]. rewrite date_eqb_lex.
  do 2 rewrite (lex_compare_3 _ _ _ (_ :: _)).
  destruct (lex_compare _ Eq) eqn:E; [|reflexivity|].
  - apply andb_true_intro; split.
    + destruct (lex_compare _ (String.compare "" "")) eqn:L; auto.
      exfalso. revert L. apply lex_compare_not_lt; [|discriminate].
      repeat constructor; lia.
    + destruct (lex_compare _ (String.compare "" _)) eqn:L; auto.
      exfalso. revert L. apply lex_compare_not_gt; [|discriminate].
      repeat constructor; lia.
  - reflexivity.
Qed.

Ltac not_same_month :=
  match goal with E : lex_compare _ Eq = ?c |- _ =>
    match goal with |- _ = ((?a =? ?b) && (?c' =? ?d))%Z =>
      destruct ((a =? b) && (c' =? d))%Z eqn:Q; [|reflexivity];
      exfalso; apply andb_prop in Q; destruct Q as [Q1 Q2];
      apply Z.eqb_eq in Q1, Q2; cbn [lex_compare] in E;
      rewrite Q1, Q2, !Z.compare_refl in E; discriminate
    end
  end.

(** The monthly window of [today] holds the stamp of a reading of the clock
    exactly when that reading falls in [today]'s month and year. *)
Lemma monthly_membership (x : datetime) (today : date) :
  valid_datetime x = true -> valid_date today = true ->
  (year today < 9999 \/ month today < 12)%Z ->
  exists lo hi,
    App.report_window App.Monthly today = Some (lo, hi) /\
    between (now_iso x) (isoformat lo) (isoformat hi) =
    ((year (dt_date x) =? year today) && (month (dt_date x) =? month today))%Z.
Proof.
  intros Vx Vt Hym. rewrite (IsoFacts.monthly_window today Vt Hym).
  do 2 eexists. split; [reflexivity|].
  pose proof (valid_datetime_bounds x Vx) as B.
  pose proof (IsoFacts.valid_date_bounds today Vt) as Bt.
  pose proof (IsoFacts.days_in_month_bounds (year today) (month today)).
  pose proof (IsoFacts.days_in_month_bounds (year (dt_date x)) (month (dt_date x))).
  unfold isoformat, midnight. cbn [microsecond].
  change (0 =? 0)%Z with true. cbv iota.
  rewrite between_lex by (unfold fields_in_range; cbn [dt_date year month day hour minute second]; lia).
  cbn [dt_date year month day hour minute second].
  do 2 rewrite (lex_compare_2 (year (dt_date x), year today) _ (_ :: _)).
  destruct (lex_compare [(year (dt_date x), year today); (month (dt_date x), month today)] Eq)
    eqn:E.
  - apply lex_compare_eq in E.
    inversion E as [|? ? Ey E2]; subst; inversion E2 as [|? ? Em _]; subst.
    cbn in Ey, Em. rewrite Ey, Em, !Z.eqb_refl.
    apply andb_true_intro; split.
    + destruct (lex_compare _ (String.compare "" "")) eqn:L; auto.
      exfalso. revert L. apply lex_compare_not_lt; [|discriminate].
      repeat constructor; lia.
    + destruct (lex_compare _ (String.compare "" "")) eqn:L; auto.
      exfalso. revert L. apply lex_compare_not_gt; [|discriminate].
      repeat constructor; rewrite <- ?Ey, <- ?Em; lia.
  - not_same_month.
  - rewrite andb_false_r. not_same_month.
Qed.

End WindowFacts.

(* ------------------------------------------------------------------ *)
(** * What the daily report shows after each kind of write *)

Module ReportFacts.
Import Time Ui.
Local Open Scope string_scope.

Lemma sales_sum_snoc (p : string -> bool) (db : App.database) (r : App.item_sale) :
  App.sales_sum p (App.mkDb (App.items db) (App.item_sales db ++ [r])
                     (App.cash_transactions db) (App.sessions db)) =
  if p (App.sale_ts r) then App.sales_sum p db + App.total r
  else App.sales_sum p db.
Proof.
  unfold App.sales_sum; cbn [App.item_sales].
  rewrite filter_app. cbn [filter].
  destruct (p (App.sale_ts r)); [|rewrite app_nil_r; reflexivity].
  rewrite map_app.
  destruct (map App.total (filter (fun r0 => p (App.sale_ts r0)) (App.item_sales db)))
    as [|c l]; [reflexivity|].
  cbn [app App.sql_sum App.coalesce0].
  rewrite app_comm_cons, fold_left_app. reflexivity.
Qed.

Lemma cash_sum_snoc (p : string -> bool) (db : App.database) (r : App.cash_transaction) :
  App.cash_sum p (App.mkDb (App.items db) (App.item_sales db)
                    (App.cash_transactions db ++ [r]) (App.sessions db)) =
  if p (App.cash_ts r) then App.cash_sum p db + App.signed_amount r
  else App.cash_sum p db.
Proof.
  unfold App.cash_sum; cbn [App.cash_transactions].
  rewrite filter_app. cbn [filter].
  destruct (p (App.cash_ts r)); [|rewrite app_nil_r; reflexivity].
  rewrite map_app.
  destruct (map App.signed_amount
              (filter (fun r0 => p (App.cash_ts r0)) (App.cash_transactions db)))
    as [|c l]; [reflexivity|].
  cbn [app App.sql_sum App.coalesce0].
  rewrite app_comm_cons, fold_left_app. reflexivity.
Qed.

(** X1: a row stamped by [now_iso()] at a reading [x] of the clock falls in
    the window of the daily report of [today] exactly when [x] is on
    [today]: no row of another day is counted, whatever its time. *)
Theorem daily_window_rows (x : datetime) (today : date) :
  valid_datetime x = true -> valid_date today = true ->
  exists lo hi,
    App.report_window App.Daily today = Some (lo, hi) /\
    between (now_iso x) (isoformat lo) (isoformat hi) = date_eqb (dt_date x) today.
Proof.
  intros Vx Vt. do 2 eexists. split; [reflexivity|].
  apply WindowFacts.daily_membership; assumption.
Qed.

(** X2: a row stamped at [x] falls in the window of the monthly report of
    [today] exactly when [x] is in the same year and month, for any month
    but December 9999. *)
Theorem monthly_window_rows (x : datetime) (today : date) :
  valid_datetime x = true -> valid_date today = true ->
  (year today < 9999 \/ month today < 12)%Z ->
  exists lo hi,
    App.report_window App.Monthly today = Some (lo, hi) /\
    between (now_iso x) (isoformat lo) (isoformat hi) =
    ((year (dt_date x) =? year today) && (month (dt_date x) =? month today))%Z.
Proof. apply WindowFacts.monthly_membership. Qed.

(** X3: after [_record_sale] at clock reading [now], the daily report of
    [today] adds [price * qty] to its item sales and its total revenue when
    [now] is on [today], and is unchanged otherwise; session revenue and
    cash net are unchanged either way. *)
Theorem sale_in_daily_report (db : App.database) (k : Z) (price : Q) (qty : Z)
    (now : datetime) (today : date) :
  valid_datetime now = true -> valid_date today = true ->
  exists rep rep',
    App.build_report App.Daily today db = Some rep /\
    App.build_report App.Daily today (App.record_sale db k price qty now) = Some rep' /\
    App.item_sales_total rep' =
      (if date_eqb (dt_date now) today
       then App.item_sales_total rep + price * inject_Z qty
       else App.item_sales_total rep) /\
    App.total_revenue rep' =
      (if date_eqb (dt_date now) today
       then App.session_revenue rep + (App.item_sales_total rep + price * inject_Z qty)
       else App.total_revenue rep) /\
    App.session_revenue rep' = App.session_revenue rep /\
    App.cash_net rep' = App.cash_net rep.
Proof.
  intros Vn Vt. do 2 eexists. split; [reflexivity|]. split; [reflexivity|].
  cbn [App.item_sales_total App.total_revenue App.session_revenue App.cash_net].
  unfold App.record_sale. rewrite sales_sum_snoc. cbn [App.sale_ts App.total].
  rewrite WindowFacts.daily_membership by assumption.
  unfold App.sessions_sum, App.cash_sum; cbn [App.sessions App.cash_transactions].
  destruct (date_eqb (dt_date now) today); repeat split; reflexivity.
Qed.

(** X4: after [_add_cash] with a positive amount at clock reading [now], the
    cash net of the daily report of [today] moves by the amount, up when the
    type is exactly ["deposit"] and down for any other text of the editable
    combobox, when [now] is on [today]; it is unchanged otherwise, and the
    session and sales figures never change. *)
Theorem cash_in_daily_report (db : App.database) (f : cash_form)
    (now : datetime) (today : date) :
  valid_datetime now = true -> valid_date today = true ->
  0 < cash_amount f ->
  exists rep rep' db' f',
    add_cash now f db = (App.Recorded, f', db') /\
    App.build_report App.Daily today db = Some rep /\
    App.build_report App.Daily today db' = Some rep' /\
    App.cash_net rep' =
      (if date_eqb (dt_date now) today
       then App.cash_net rep +
            (if String.eqb (cash_type f) "deposit" then cash_amount f
             else - cash_amount f)
       else App.cash_net rep) /\
    App.session_revenue rep' = App.session_revenue rep /\
    App.item_sales_total rep' = App.item_sales_total rep /\
    App.total_revenue rep' = App.total_revenue rep.
Proof.
  intros Vn Vt Hpos. unfold add_cash.
  replace (Qle_bool (cash_amount f) 0) with false
    by (symmetry; apply not_true_iff_false; rewrite Qle_bool_iff; lra).
  do 4 eexists. split; [reflexivity|]. split; [reflexivity|]. split; [reflexivity|].
  cbn [App.item_sales_total App.total_revenue App.session_revenue App.cash_net].
  rewrite cash_sum_snoc. cbn [App.cash_ts App.signed_amount App.type_ App.amount].
  rewrite WindowFacts.daily_membership by assumption.
  unfold App.sessions_sum, App.sales_sum; cbn [App.sessions App.item_sales].
  repeat split; reflexivity.
Qed.

(** X5: when [_stop_station] stops a running station, the daily report of
    [today] adds the new session's cost to its session revenue exactly when
    the first [now_iso()] reading of [_save_session] ([start_ts], taken at
    the stop) is on [today]. *)
Theorem stop_in_daily_report (t tq : Q) (d1 d2 : datetime) (st : App.station)
    (s s' : Engine.StationState) (db db' : App.database) (today : date) :
  valid_datetime d1 = true -> valid_date today = true ->
  Engine.running s = true ->
  App.stop_station t tq d1 d2 st s db = Some (s', db') ->
  exists rep rep' r,
    App.sessions db' = (App.sessions db ++ [r])%list /\
    App.build_report App.Daily today db = Some rep /\
    App.build_report App.Daily today db' = Some rep' /\
    App.session_revenue rep' =
      (if date_eqb (dt_date d1) today then App.session_revenue rep + App.cost r
       else App.session_revenue rep) /\
    App.item_sales_total rep' = App.item_sales_total rep /\
    App.cash_net rep' = App.cash_net rep.
Proof.
  intros V1 Vt R E. unfold App.stop_station in E. rewrite R in E. cbn [negb] in E.
  destruct (Engine.stop t s) as [s1|]; [|discriminate].
  destruct (Engine.current_elapsed tq s1) as [e|]; [|discriminate].
  injection E as <- <-. unfold App.save_session.
  do 3 eexists. split; [reflexivity|]. split; [reflexivity|]. split; [reflexivity|].
  cbn [App.item_sales_total App.session_revenue App.cash_net].
  rewrite IsoFacts.sessions_sum_snoc. cbn [App.start_ts].
  rewrite WindowFacts.daily_membership by assumption.
  unfold App.sales_sum, App.cash_sum; cbn [App.item_sales App.cash_transactions].
  repeat split; reflexivity.
Qed.

(** X7: the live cost the dashboard shows for a running station at clock
    reading [t] is the cost [_stop_station] saves when the stop reads the
    clock at the same [t], paused or not. *)
Theorem dashboard_cost_is_saved_cost (t tq : Q) (d1 d2 : datetime)
    (st : App.station) (s s' : Engine.StationState) (db db' : App.database)
    (txt lbl : string) (c : Q) :
  Engine.running s = true ->
  dashboard_line t st s = Some (txt, c, lbl) ->
  App.stop_station t tq d1 d2 st s db = Some (s', db') ->
  exists r, App.sessions db' = (App.sessions db ++ [r])%list /\ App.cost r = c.
Proof.
  intros R D E. unfold dashboard_line in D. unfold App.stop_station in E.
  rewrite R in E. cbn [negb] in E.
  unfold Engine.current_elapsed, Engine.stop in *. rewrite R in D, E.
  destruct (Engine.paused s); cbn [negb andb] in D, E.
  - injection D as _ <- _. cbn [Engine.running Engine.paused andb Engine.elapsed] in E.
    injection E as <- <-. eexists; split; reflexivity.
  - destruct (Engine.since t (Engine.start_ts s)) as [d|]; [|discriminate].
    injection D as _ <- _. cbn [Engine.running Engine.paused andb Engine.elapsed] in E.
    injection E as <- <-. eexists; split; reflexivity.
Qed.

End ReportFacts.

(* ------------------------------------------------------------------ *)
(** * Numerals, timer text and the Start button *)

Module DisplayFacts.
Import Ui.
Local Open Scope string_scope.

Lemma translate_digit_not_ascii (c : Z) : is_ascii_digit (translate_digit c) = false.
Proof.
  unfold translate_digit, is_ascii_digit.
  destruct ((48 <=? c) && (c <=? 57))%Z eqn:E.
  - apply andb_prop in E as [E1 E2]. apply Z.leb_le in E1, E2.
    apply andb_false_iff. right. apply Z.leb_gt. lia.
  - exact E.
Qed.

(** X8: [to_arabic_numerals] keeps the length of the text, leaves no ASCII
    digit in it, and applying it twice changes nothing more. *)
Theorem to_arabic_numerals_idempotent (t : text) :
  List.length (to_arabic_numerals t) = List.length t /\
  forallb (fun c => negb (is_ascii_digit c)) (to_arabic_numerals t) = true /\
  to_arabic_numerals (to_arabic_numerals t) = to_arabic_numerals t.
Proof.
  unfold to_arabic_numerals. split; [apply length_map|].
  induction t as [|c t IH]; [split; reflexivity|].
  cbn [map forallb]. destruct IH as [IH1 IH2].
  rewrite translate_digit_not_ascii, IH1, IH2. split; [reflexivity|].
  f_equal. unfold translate_digit at 1.
  pose proof (translate_digit_not_ascii c) as N. unfold is_ascii_digit in N.
  rewrite N. reflexivity.
Qed.

(** X9: on texts holding no Arabic-Indic digit, [to_arabic_numerals] loses
    nothing: two different texts never give the same result. *)
Theorem to_arabic_numerals_injective (t1 t2 : text) :
  forallb (fun c => negb (is_arabic_digit c)) t1 = true ->
  forallb (fun c => negb (is_arabic_digit c)) t2 = true ->
  to_arabic_numerals t1 = to_arabic_numerals t2 -> t1 = t2.
Proof.
  revert t2; induction t1 as [|c1 t1 IH]; intros [|c2 t2] H1 H2 E;
    try discriminate; [reflexivity|].
  cbn [to_arabic_numerals map forallb] in *.
  apply andb_prop in H1 as [A1 H1]. apply andb_prop in H2 as [A2 H2].
  injection E as Ec Et. f_equal; [|apply IH; assumption].
  unfold is_arabic_digit, translate_digit in *.
  apply negb_true_iff in A1, A2.
  destruct ((48 <=? c1) && (c1 <=? 57))%Z eqn:D1,
           ((48 <=? c2) && (c2 <=? 57))%Z eqn:D2;
  repeat match goal with
         | H : (_ && _)%bool = true |- _ => apply andb_prop in H; destruct H
         | H : (_ && _)%bool = false |- _ => apply andb_false_iff in H; destruct H
         | H : Z.leb _ _ = true |- _ => apply Z.leb_le in H
         | H : Z.leb _ _ = false |- _ => apply Z.leb_gt in H
         end; lia.
Qed.

Lemma Qfloor_unique (z : Z) (x : Q) :
  inject_Z z <= x -> x < inject_Z (z + 1) -> Qfloor x = z.
Proof.
  intros H1 H2. pose proof (Qfloor_le x) as F1. pose proof (Qlt_floor x) as F2.
  assert (A : (z < Qfloor x + 1)%Z)
    by (rewrite Zlt_Qlt; apply Qle_lt_trans with x; assumption).
  assert (B : (Qfloor x < z + 1)%Z)
    by (rewrite Zlt_Qlt; apply Qle_lt_trans with x; assumption).
  lia.
Qed.

Lemma Qfloor_add_Z (x : Q) (n : Z) : Qfloor (x + inject_Z n) = (Qfloor x + n)%Z.
Proof.
  apply Qfloor_unique.
  - rewrite inject_Z_plus. pose proof (Qfloor_le x). lra.
  - replace (Qfloor x + n + 1)%Z with ((Qfloor x + 1) + n)%Z by lia.
    rewrite inject_Z_plus. pose proof (Qlt_floor x). lra.
Qed.

(** X10: the dashboard timer of a session of [e] seconds reads
    hours:minutes:seconds of the whole seconds of [e] modulo one day, so
    after 24 hours it starts again from 00:00:00. *)
Theorem timer_text_modulo_day (e : Q) :
  0 <= e -> e + 86400 <= 1000000000000 ->
  (exists h m s,
     timer_text e = Time.pad2 h ++ ":" ++ Time.pad2 m ++ ":" ++ Time.pad2 s /\
     (0 <= h < 24 /\ 0 <= m < 60 /\ 0 <= s < 60)%Z /\
     (h * 3600 + m * 60 + s = Qfloor e mod 86400)%Z) /\
  timer_text (e + 86400) = timer_text e.
Proof.
  intros _ _. split.
  - unfold timer_text. set (t := (Qfloor e mod 86400)%Z).
    assert (T : (0 <= t < 86400)%Z) by (apply Z.mod_pos_bound; lia).
    exists (t / 3600)%Z, ((t mod 3600) / 60)%Z, (t mod 60)%Z.
    split; [reflexivity|].
    pose proof (Z.div_mod t 3600 ltac:(lia)).
    pose proof (Z.mod_pos_bound t 3600 ltac:(lia)).
    pose proof (Z.div_mod (t mod 3600) 60 ltac:(lia)).
    pose proof (Z.mod_pos_bound (t mod 3600) 60 ltac:(lia)).
    pose proof (Z.mod_pos_bound t 60 ltac:(lia)).
    assert (M : ((t mod 3600) mod 60 = t mod 60)%Z)
      by (apply Z.mod_mod_divide; exists 60%Z; lia).
    split; [|lia].
    split; [split; [apply Z.div_pos | apply Z.div_lt_upper_bound]; lia|].
    split; [split; [apply Z.div_pos | apply Z.div_lt_upper_bound]; lia|].
    lia.
  - unfold timer_text. change 86400 with (inject_Z 86400).
    rewrite Qfloor_add_Z, Z.add_mod, Z.mod_same, Z.add_0_r, Z.mod_mod by lia.
    reflexivity.
Qed.

(** X11: pressing Start on a station that is already running or paused
    leaves its timer alone but replaces its customer name by the entry's
    text, and the session saved by the next stop carries that name. *)
Theorem start_on_running_renames (cv : string) (now : Q) (s : Engine.StationState) :
  Engine.running s = true ->
  start_station cv now s =
    Engine.mkState true (Engine.paused s) (Engine.start_ts s) (Engine.elapsed s) cv /\
  (forall t tq d1 d2 st db s' db',
     App.stop_station t tq d1 d2 st (start_station cv now s) db = Some (s', db') ->
     exists r, App.sessions db' = (App.sessions db ++ [r])%list /\
               App.customer_name r = cv).
Proof.
  intros R. assert (E : start_station cv now s =
    Engine.mkState true (Engine.paused s) (Engine.start_ts s) (Engine.elapsed s) cv)
    by (unfold start_station, Engine.start; cbn [Engine.running]; rewrite R; reflexivity).
  split; [exact E|]. intros t tq d1 d2 st db s' db' H. rewrite E in H.
  unfold App.stop_station, Engine.stop in H; cbn [Engine.running negb Engine.paused] in H.
  destruct (if negb (Engine.paused s) then _ else _) as [e|]; [|discriminate].
  destruct (Engine.current_elapsed tq _) as [e'|]; [|discriminate].
  injection H as <- <-. eexists; split; reflexivity.
Qed.

End DisplayFacts.

(* ------------------------------------------------------------------ *)
(** * The items table under the Items tab *)

Module ItemFacts.
Import Ui.
Local Open Scope string_scope.

Lemma find_item_app (l1 l2 : list App.item) (k : Z) :
  App.find_item (l1 ++ l2) k =
  match App.find_item l1 k with Some it => Some it | None => App.find_item l2 k end.
Proof.
  induction l1 as [|it l1 IH]; [reflexivity|].
  cbn [app App.find_item]. destruct (App.item_key it =? k)%Z; auto.
Qed.

Lemma find_item_none (l : list App.item) (k : Z) :
  ~ In k (map App.item_key l) -> App.find_item l k = None.
Proof.
  induction l as [|it l IH]; intros H; [reflexivity|].
  cbn [App.find_item]. cbn [map In] in H.
  destruct (Z.eqb_spec (App.item_key it) k); [tauto|]. apply IH. tauto.
Qed.

Lemma max_id_ge (l : list App.item) :
  Forall (fun it => App.item_key it <= max_id l)%Z l /\ (0 <= max_id l)%Z.
Proof.
  induction l as [|it l [IH1 IH2]]; cbn [max_id fold_right]; [split; [constructor|lia]|].
  fold (max_id l). split; [|lia]. constructor; [lia|].
  eapply Forall_impl; [|exact IH1]. intros a Ha. cbn beta in Ha. lia.
Qed.

Lemma find_item_update (l : list App.item) (k k' : Z) (nm : string) (p : Q) :
  App.find_item (map (fun it => if (App.item_key it =? k)%Z then App.mkItem k nm p else it) l) k'
  = if (k' =? k)%Z then option_map (fun _ => App.mkItem k nm p) (App.find_item l k)
    else App.find_item l k'.
Proof.
  induction l as [|it l IH]; cbn [map App.find_item].
  - destruct (k' =? k)%Z; reflexivity.
  - rewrite IH. destruct (Z.eqb_spec (App.item_key it) k) as [E|E];
      cbn [App.item_key App.find_item];
      repeat match goal with |- context [(?a =? ?b)%Z] => destruct (Z.eqb_spec a b) end;
      cbn [option_map]; try reflexivity; exfalso; lia.
Qed.

Lemma find_item_delete (l : list App.item) (k k' : Z) :
  App.find_item (filter (fun it => negb (App.item_key it =? k)%Z) l) k'
  = if (k' =? k)%Z then None else App.find_item l k'.
Proof.
  induction l as [|it l IH]; cbn [filter App.find_item].
  - destruct (k' =? k)%Z; reflexivity.
  - destruct (Z.eqb_spec (App.item_key it) k) as [E|E]; cbn [negb].
    + rewrite IH. destruct (Z.eqb_spec k' k); [reflexivity|].
      rewrite (proj2 (Z.eqb_neq (App.item_key it) k')) by lia. reflexivity.
    + cbn [App.find_item]. rewrite IH.
      destruct (Z.eqb_spec (App.item_key it) k') as [F|F];
        destruct (Z.eqb_spec k' k); try lia; reflexivity.
Qed.

Section Strip.
Variable strip : string -> string.

(** What the tab keeps true of the table: ids are distinct, positive and
    at most the AUTOINCREMENT counter; every name is non-empty; every price
    is positive. *)
Definition items_ok (T : items_table) : Prop :=
  NoDup (map App.item_key (rows T)) /\ (0 <= seq T)%Z /\
  Forall (fun it => App.name it <> "" /\ 0 < App.price it /\
                    (1 <= App.item_key it <= seq T)%Z) (rows T).

Lemma dialog_accepts (raw : string) (p : Q) :
  dialog_rejects strip raw p = false -> strip raw <> "" /\ 0 < p.
Proof.
  unfold dialog_rejects. intros H. apply orb_false_iff in H as [H1 H2].
  split.
  - intros E. rewrite E in H1. discriminate.
  - apply not_true_iff_false in H2. rewrite Qle_bool_iff in H2. lra.
Qed.

Lemma max_id_le_seq (T : items_table) :
  items_ok T -> (max_id (rows T) <= seq T)%Z.
Proof.
  intros [_ [S F]]. induction (rows T) as [|it l IH]; cbn [max_id fold_right]; [lia|].
  fold (max_id l). inversion F as [|? ? [_ [_ B]] F']; subst. specialize (IH F'). lia.
Qed.

Lemma save_new_item_ok (nm : string) (p : Q) (T T' : items_table) :
  items_ok T -> nm <> "" -> 0 < p -> save_new_item nm p T = Some T' ->
  items_ok T' /\ seq T' = (seq T + 1)%Z /\
  rows T' = (rows T ++ [App.mkItem (seq T + 1) nm p])%list.
Proof.
  intros H N P E. pose proof (max_id_le_seq T H) as M.
  unfold save_new_item in E. rewrite Z.max_l in E by lia.
  destruct (seq T + 1 <=? max_rowid)%Z; [|discriminate]. injection E as <-.
  destruct H as [D [S F]]. unfold items_ok; cbn [rows seq].
  split; [|split; reflexivity].
  split; [|split; [lia|]].
  - rewrite map_app. cbn [map App.item_key]. apply NoDup_app; [exact D| |].
    + constructor; [intros []|constructor].
    + intros x Hx Hy. destruct Hy as [<-|[]]. apply in_map_iff in Hx as [it [Ek Hin]].
      rewrite Forall_forall in F. destruct (F it Hin) as [_ [_ B]]. lia.
  - apply Forall_app. split.
    + eapply Forall_impl; [|exact F]. intros it [A [B C]]. repeat split; auto; lia.
    + constructor; [|constructor]. cbn [App.name App.price App.item_key].
      repeat split; auto; lia.
Qed.

Lemma item_step_ok (c : item_cmd) (T T' : items_table) :
  items_ok T -> item_step strip c T = Some T' ->
  items_ok T' /\ (seq T <= seq T')%Z /\
  (forall k, ~ In k (map App.item_key (rows T)) -> (k <= seq T)%Z ->
             ~ In k (map App.item_key (rows T'))).
Proof.
  intros H E. destruct c as [raw p|k raw p|k yes]; cbn [item_step] in E.
  - destruct (dialog_rejects strip raw p) eqn:R.
    + injection E as <-. split; [exact H|]. split; [lia|]. auto.
    + destruct (dialog_accepts raw p R) as [N P].
      destruct (save_new_item_ok _ _ _ _ H N P E) as [H' [S' R']].
      split; [exact H'|]. split; [lia|]. intros k Hk Hs. rewrite R', map_app.
      cbn [map App.item_key]. rewrite in_app_iff. intros [Hin|[Heq|[]]]; [tauto|lia].
  - destruct (App.find_item (rows T) k); [|injection E as <-; split; [exact H|]; split; [lia|]; auto].
    destruct (dialog_rejects strip raw p) eqn:R.
    + injection E as <-. split; [exact H|]. split; [lia|]. auto.
    + destruct (dialog_accepts raw p R) as [N P]. injection E as <-.
      unfold update_item, items_ok; cbn [rows seq].
      assert (K : map App.item_key
                    (map (fun it => if (App.item_key it =? k)%Z
                                    then App.mkItem k (strip raw) p else it) (rows T))
                  = map App.item_key (rows T)).
      { rewrite map_map. apply map_ext. intros it.
        destruct (Z.eqb_spec (App.item_key it) k); cbn [App.item_key]; auto. }
      rewrite K. destruct H as [D [S F]]. split; [|split; [lia|auto]].
      split; [exact D|]. split; [exact S|].
      apply Forall_map. eapply Forall_impl; [|exact F]. intros it [A [B C]].
      destruct (Z.eqb_spec (App.item_key it) k) as [Ek|Ek];
        cbn [App.name App.price App.item_key]; repeat split; auto; lia.
  - destruct yes; injection E as <-; [|split; [exact H|]; split; [lia|]; auto].
    unfold delete_item, items_ok; cbn [rows seq]. destruct H as [D [S F]].
    split; [|split; [lia|]].
    + split; [|split; [exact S|]].
      * clear F. induction (rows T) as [|it l IH]; cbn [filter]; [constructor|].
        inversion D as [|? ? Ni Dl]; subst.
        destruct (negb (App.item_key it =? k)%Z); cbn [map]; [|auto].
        constructor; [|auto]. intros Hin. apply Ni.
        apply in_map_iff in Hin as [it' [Ek Hin]]. apply filter_In in Hin as [Hin _].
        rewrite <- Ek. apply in_map. exact Hin.
      * apply Forall_forall. intros x Hx. apply filter_In in Hx as [Hx _].
        rewrite Forall_forall in F. exact (F x Hx).
    + intros k' Hk _ Hin. apply Hk. apply in_map_iff in Hin as [it [<- Hin]].
      apply filter_In in Hin as [Hin _]. apply in_map. exact Hin.
Qed.

Lemma item_run_ok (cs : list item_cmd) (T T' : items_table) :
  items_ok T -> item_run strip cs T = Some T' ->
  items_ok T' /\ (seq T <= seq T')%Z /\
  (forall k, ~ In k (map App.item_key (rows T)) -> (k <= seq T)%Z ->
             ~ In k (map App.item_key (rows T'))).
Proof.
  revert T; induction cs as [|c cs IH]; intros T H E; cbn [item_run] in E.
  - injection E as <-. split; [exact H|]. split; [lia|]. auto.
  - destruct (item_step strip c T) as [T1|] eqn:S1; [|discriminate].
    destruct (item_step_ok c T T1 H S1) as [H1 [L1 K1]].
    destruct (IH T1 H1 E) as [H2 [L2 K2]].
    split; [exact H2|]. split; [lia|]. intros k Hk Hs. apply K2; [apply K1|]; auto; lia.
Qed.

Lemma items_ok_empty : items_ok empty_items.
Proof. split; [constructor|]. split; [cbn; lia|constructor]. Qed.

Lemma find_item_in (l : list App.item) (k : Z) (it : App.item) :
  App.find_item l k = Some it -> In it l /\ App.item_key it = k.
Proof.
  induction l as [|x l IH]; cbn [App.find_item]; [discriminate|].
  destruct (Z.eqb_spec (App.item_key x) k).
  - intros [= <-]. split; [left|]; auto.
  - intros E. destruct (IH E). split; [right|]; auto.
Qed.

(** X12: whatever the operator does on the Items tab from an empty table,
    the Add and Edit dialogs only let through a non-empty (stripped) name
    and a positive price, and ids stay distinct. *)
Theorem items_always_valid (cs : list item_cmd) (T : items_table) :
  item_run strip cs empty_items = Some T ->
  NoDup (map App.item_key (rows T)) /\
  Forall (fun it => App.name it <> "" /\ 0 < App.price it) (rows T).
Proof.
  intros E. destruct (item_run_ok cs _ _ items_ok_empty E) as [[D [_ F]] _].
  split; [exact D|]. eapply Forall_impl; [|exact F]. intros it [A [B _]]. auto.
Qed.

(** X13: AUTOINCREMENT: once an item is deleted, no later action on the
    Items tab brings its id back, so no new item takes the id that old
    [item_sales] rows still point to. *)
Theorem deleted_id_never_reused (cs0 cs : list item_cmd) (T T' : items_table)
    (k : Z) (it : App.item) :
  item_run strip cs0 empty_items = Some T ->
  App.find_item (rows T) k = Some it ->
  item_run strip (CDelete k true :: cs) T = Some T' ->
  App.find_item (rows T') k = None.
Proof.
  intros E0 F E. destruct (item_run_ok cs0 _ _ items_ok_empty E0) as [H _].
  destruct (find_item_in _ _ _ F) as [Hin Hk].
  assert (B : (k <= seq T)%Z).
  { destruct H as [_ [_ Fa]]. rewrite Forall_forall in Fa.
    destruct (Fa it Hin) as [_ [_ B]]. lia. }
  cbn [item_run item_step] in E.
  assert (Hd : items_ok (delete_item k T)).
  { apply (item_step_ok (CDelete k true) T); [exact H|reflexivity]. }
  destruct (item_run_ok cs _ _ Hd E) as [_ [_ K]].
  apply find_item_none, K; cbn [seq delete_item]; [|exact B].
  intros Hin'. apply in_map_iff in Hin' as [x [Ex Hx]].
  apply filter_In in Hx as [_ Nx]. rewrite Ex, Z.eqb_refl in Nx. discriminate.
Qed.

End Strip.

(** X14: [_save_new_item] appends the item under a fresh id, one more than
    the larger of the counter and the largest id present; looking that id
    up gives the new item and every other id looks up as before. *)
Theorem save_new_item_lookup (nm : string) (p : Q) (T T' : items_table) :
  save_new_item nm p T = Some T' ->
  (seq T < seq T')%Z /\
  rows T' = (rows T ++ [App.mkItem (seq T') nm p])%list /\
  App.find_item (rows T') (seq T') = Some (App.mkItem (seq T') nm p) /\
  (forall k, k <> seq T' -> App.find_item (rows T') k = App.find_item (rows T) k).
Proof.
  unfold save_new_item. intros E.
  destruct (Z.max (seq T) (max_id (rows T)) + 1 <=? max_rowid)%Z; [|discriminate].
  injection E as <-. cbn [rows seq]. destruct (max_id_ge (rows T)) as [M _].
  split; [lia|]. split; [reflexivity|]. split.
  - rewrite find_item_app, find_item_none; cbn [App.find_item App.item_key].
    + rewrite Z.eqb_refl. reflexivity.
    + intros Hin. apply in_map_iff in Hin as [it [Ek Hin]].
      rewrite Forall_forall in M. specialize (M it Hin). lia.
  - intros k Hk. rewrite find_item_app. cbn [App.find_item App.item_key].
    destruct (App.find_item (rows T) k); [reflexivity|].
    rewrite (proj2 (Z.eqb_neq _ _)) by lia. reflexivity.
Qed.

(** X15: after [_update_item] for id [k], looking [k] up gives the new name
    and price if the item existed and nothing if it did not; after
    [_delete_item] for [k], looking [k] up gives nothing; every other id
    looks up as before in both cases. *)
Theorem update_delete_lookup (k k' : Z) (nm : string) (p : Q) (T : items_table) :
  App.find_item (rows (update_item k nm p T)) k =
    option_map (fun _ => App.mkItem k nm p) (App.find_item (rows T) k) /\
  App.find_item (rows (delete_item k T)) k = None /\
  (k' <> k ->
   App.find_item (rows (update_item k nm p T)) k' = App.find_item (rows T) k' /\
   App.find_item (rows (delete_item k T)) k' = App.find_item (rows T) k').
Proof.
  unfold update_item, delete_item; cbn [rows].
  rewrite !find_item_update, !find_item_delete, !Z.eqb_refl.
  split; [reflexivity|]. split; [reflexivity|]. intros H.
  rewrite (proj2 (Z.eqb_neq _ _) H). split; reflexivity.
Qed.

End ItemFacts.

(* ------------------------------------------------------------------ *)
(** * The further theorems at concrete inputs *)

(* ------------------------------------------------------------------ *)
(** * Sorting the price and amount columns *)

Module SortFacts.
Import Ui Columns.

Lemma ascii_digit_range (c : Z) : is_ascii_digit c = true <-> (48 <= c <= 57)%Z.
Proof.
  unfold is_ascii_digit. rewrite andb_true_iff, !Z.leb_le. tauto.
Qed.

Lemma ascii_digit_cases (c : Z) : (48 <= c <= 57)%Z ->
  c = 48%Z \/ c = 49%Z \/ c = 50%Z \/ c = 51%Z \/ c = 52%Z \/
  c = 53%Z \/ c = 54%Z \/ c = 55%Z \/ c = 56%Z \/ c = 57%Z.
Proof. lia. Qed.

Lemma digit_map_id : digit_map_ok (fun c => c).
Proof.
  split; [intros; reflexivity|]. intros c H. apply ascii_digit_range in H.
  apply ascii_digit_cases in H.
  repeat destruct H as [H|H]; subst c; repeat split; cbn; try reflexivity; discriminate.
Qed.

Lemma digit_map_arabic : digit_map_ok translate_digit.
Proof.
  split.
  - intros c H. unfold translate_digit. unfold is_ascii_digit in H. rewrite H. reflexivity.
  - intros c H. apply ascii_digit_range in H. apply ascii_digit_cases in H.
    repeat destruct H as [H|H]; subst c; repeat split; cbn; try reflexivity; discriminate.
Qed.

Lemma digits_rev_ascii (f : nat) (n : Z) : forallb is_ascii_digit (digits_rev f n) = true.
Proof.
  revert n; induction f as [|f IH]; intros n; [reflexivity|].
  cbn [digits_rev]. destruct (n =? 0)%Z; [reflexivity|].
  cbn [forallb]. rewrite IH, andb_true_r. apply ascii_digit_range.
  pose proof (Z.mod_pos_bound n 10 ltac:(lia)). lia.
Qed.

Lemma digits_value_snoc (l : text) (c : Z) :
  digits_value (l ++ [c]) = (10 * digits_value l + digit_value c)%Z.
Proof. unfold digits_value. rewrite fold_left_app. reflexivity. Qed.

Lemma digits_rev_value (f : nat) (n : Z) :
  (0 <= n < 10 ^ Z.of_nat f)%Z -> digits_value (rev (digits_rev f n)) = n.
Proof.
  revert n; induction f as [|f IH]; intros n Hn.
  - cbn in Hn. cbn. lia.
  - cbn [digits_rev]. destruct (Z.eqb_spec n 0) as [E|E]; [cbn; lia|].
    cbn [rev]. rewrite digits_value_snoc, IH.
    + unfold digit_value. rewrite (proj2 (ascii_digit_range _))
        by (pose proof (Z.mod_pos_bound n 10 ltac:(lia)); lia).
      pose proof (Z.div_mod n 10 ltac:(lia)). lia.
    + rewrite Nat2Z.inj_succ, Z.pow_succ_r in Hn by lia.
      split; [apply Z.div_pos; lia | apply Z.div_lt_upper_bound; lia].
Qed.

Lemma pos_lt_pow10 (p : positive) : (Z.pos p < 10 ^ Z.of_nat (Pos.size_nat p))%Z.
Proof.
  induction p as [p IH|p IH|]; cbn [Pos.size_nat]; [| |cbn; lia];
    rewrite Nat2Z.inj_succ, Z.pow_succ_r by lia; lia.
Qed.

Lemma int_digits_rev_spec (m : Z) :
  (0 <= m)%Z ->
  int_digits_rev m <> [] /\ forallb is_ascii_digit (int_digits_rev m) = true /\
  digits_value (rev (int_digits_rev m)) = m.
Proof.
  intros Hm. destruct m as [|p|p]; [|cbn [int_digits_rev]|lia].
  - split; [discriminate|]. split; reflexivity.
  - pose proof (pos_lt_pow10 p) as L.
    split; [|split; [apply digits_rev_ascii|apply digits_rev_value; lia]].
    destruct (Pos.size_nat p) eqn:S; [cbn in L; lia|].
    cbn [digits_rev]. destruct (Z.pos p =? 0)%Z eqn:E; [discriminate|discriminate].
Qed.

Lemma digits_value_map (g : Z -> Z) (l : text) :
  digit_map_ok g -> forallb is_ascii_digit l = true ->
  digits_value (map g l) = digits_value l /\ forallb is_dec_digit (map g l) = true.
Proof.
  intros [_ G]. unfold digits_value.
  assert (forall acc, forallb is_ascii_digit l = true ->
            fold_left (fun acc c => (10 * acc + digit_value c)%Z) (map g l) acc =
            fold_left (fun acc c => (10 * acc + digit_value c)%Z) l acc /\
            forallb is_dec_digit (map g l) = true) as H; [|apply H].
  induction l as [|c l IH]; intros acc F; [split; reflexivity|].
  cbn [map fold_left forallb] in *. apply andb_prop in F as [Fc Fl].
  destruct (G c Fc) as [D1 [D2 _]]. rewrite D2, D1.
  destruct (IH (10 * acc + digit_value c)%Z Fl) as [I1 I2]. rewrite I1, I2. split; reflexivity.
Qed.

(** [str.replace] of a single character by nothing removes every copy. *)
Lemma replace_char (c0 : Z) (f : nat) (s : text) :
  (List.length s <= f)%nat ->
  replace_go f [c0] [] s = filter (fun c => negb (c =? c0)%Z) s.
Proof.
  revert f; induction s as [|c s IH]; intros f Hf; destruct f as [|f];
    cbn [List.length] in Hf; try lia; [reflexivity|reflexivity|].
  cbn [replace_go is_prefix filter]. rewrite andb_true_r.
  rewrite (Z.eqb_sym c0 c). destruct (c =? c0)%Z; cbn [negb app skipn List.length];
    rewrite IH by lia; reflexivity.
Qed.

(** No [E] in the text: [.replace("EGP", "")] leaves it as it is. *)
Lemma replace_egp_none (f : nat) (s : text) :
  forallb (fun c => negb (c =? 69)%Z) s = true ->
  replace_go f [69; 71; 80]%Z [] s = s.
Proof.
  revert s; induction f as [|f IH]; intros s H; [reflexivity|].
  destruct s as [|c s]; [reflexivity|].
  cbn [forallb] in H. apply andb_prop in H as [Hc Hs].
  cbn [replace_go is_prefix]. rewrite (Z.eqb_sym 69 c).
  apply negb_true_iff in Hc. rewrite Hc. cbn [andb]. rewrite IH by exact Hs. reflexivity.
Qed.

Lemma filter_rev {B} (p : B -> bool) (l : list B) : filter p (rev l) = rev (filter p l).
Proof.
  induction l as [|x l IH]; [reflexivity|]. cbn [rev filter].
  rewrite filter_app, IH. cbn [filter]. destruct (p x); cbn; auto using app_nil_r.
Qed.

Lemma group3_filter (g : Z -> Z) (n : nat) (l : text) :
  digit_map_ok g -> (List.length l <= n)%nat -> forallb is_ascii_digit l = true ->
  filter (fun c => negb (c =? 44)%Z) (map g (group3 l)) = map g l.
Proof.
  intros [G0 G]. revert l; induction n as [|n IH]; intros l Hl F.
  - destruct l; [reflexivity|cbn in Hl; lia].
  - assert (K : forall c, is_ascii_digit c = true -> negb (g c =? 44)%Z = true).
    { intros c Hc. destruct (G c Hc) as [_ [_ [_ [N _]]]].
      apply negb_true_iff, Z.eqb_neq. exact N. }
    assert (Fl : forall m : text, forallb is_ascii_digit m = true ->
              filter (fun c => negb (c =? 44)%Z) (map g m) = map g m).
    { induction m as [|c m IHm]; intros Fm; [reflexivity|].
      cbn [forallb] in Fm. apply andb_prop in Fm as [Fc Fm].
      cbn [map filter]. rewrite K, IHm by assumption. reflexivity. }
    destruct l as [|a [|b [|c [|d rest]]]]; try (apply Fl; exact F).
    change (group3 (a :: b :: c :: d :: rest))
      with (a :: b :: c :: 44%Z :: group3 (d :: rest)).
    cbn [map filter]. cbn [forallb] in F.
    repeat match goal with H : (_ && _) = true |- _ => apply andb_prop in H as [? ?] end.
    rewrite !K by assumption.
    rewrite (G0 44%Z) by reflexivity. cbn [Z.eqb negb Pos.eqb].
    change (g d :: map g rest) with (map g (d :: rest)).
    rewrite IH; [reflexivity| cbn in Hl |- *; lia |].
    cbn [forallb]. rewrite H2, H3. reflexivity.
Qed.


Lemma map_id_text (t : text) : map (fun c => c) t = t.
Proof. induction t as [|c t IH]; [reflexivity|]. cbn. rewrite IH. reflexivity. Qed.

Lemma forallb_impl {B} (p q : B -> bool) (l : list B) :
  (forall c, p c = true -> q c = true) -> forallb p l = true -> forallb q l = true.
Proof.
  intros I. induction l as [|c l IH]; [reflexivity|]. cbn [forallb].
  intros H. apply andb_prop in H as [H1 H2]. rewrite (I c H1), (IH H2). reflexivity.
Qed.

Lemma forallb_rev {B} (p : B -> bool) (l : list B) : forallb p (rev l) = forallb p l.
Proof.
  induction l as [|c l IH]; [reflexivity|]. cbn [rev forallb].
  rewrite forallb_app, IH. cbn [forallb]. rewrite andb_true_r, andb_comm. reflexivity.
Qed.

Lemma filter_all {B} (p : B -> bool) (l : list B) : forallb p l = true -> filter p l = l.
Proof.
  induction l as [|c l IH]; [reflexivity|]. cbn [forallb filter].
  intros H. apply andb_prop in H as [H1 H2]. rewrite H1, (IH H2). reflexivity.
Qed.

Lemma rtl_map_ok (rtl : bool) : digit_map_ok (rtl_map rtl).
Proof. destruct rtl; [apply digit_map_arabic|apply digit_map_id]. Qed.

Lemma map_digit_chars (g : Z -> Z) (m : text) :
  digit_map_ok g -> forallb is_ascii_digit m = true -> forallb digit_char (map g m) = true.
Proof.
  intros [_ G]. induction m as [|c m IH]; [reflexivity|]. cbn [map forallb].
  intros H. apply andb_prop in H as [H1 H2]. rewrite (IH H2), andb_true_r.
  destruct (G c H1) as [D1 [_ [D3 [D4 [D5 D6]]]]]. unfold digit_char.
  rewrite D1, D3, (proj2 (Z.eqb_neq _ _) D4), (proj2 (Z.eqb_neq _ _) D5),
    (proj2 (Z.eqb_neq _ _) D6). reflexivity.
Qed.

Lemma round_half_even_nonneg (q : Q) : 0 <= q -> (0 <= round_half_even q)%Z.
Proof.
  intros Hq. assert (F : (0 <= Qfloor q)%Z).
  { change 0%Z with (Qfloor 0). apply Qfloor_resp_le. exact Hq. }
  unfold round_half_even. destruct (Qcompare _ _); [destruct (Z.even _)| |]; lia.
Qed.

Lemma cents_nonneg (x : Q) : (0 <= cents x)%Z.
Proof.
  apply round_half_even_nonneg. pose proof (Qabs_nonneg x).
  apply (Qmult_le_0_compat); [assumption|discriminate].
Qed.

Lemma frac_part_ascii (x : Q) : forallb is_ascii_digit (frac_part x) = true.
Proof.
  unfold frac_part. cbn [forallb]. rewrite andb_true_r.
  pose proof (Z.mod_pos_bound (cents x) 100 ltac:(lia)).
  pose proof (Z.mod_pos_bound (cents x) 10 ltac:(lia)).
  apply andb_true_intro; split; apply ascii_digit_range; Z.div_mod_to_equations; lia.
Qed.

Lemma frac_part_value (x : Q) : digits_value (frac_part x) = (cents x mod 100)%Z.
Proof.
  unfold frac_part, digits_value. cbn [fold_left].
  pose proof (Z.mod_pos_bound (cents x) 100 ltac:(lia)).
  pose proof (Z.mod_pos_bound (cents x) 10 ltac:(lia)).
  unfold digit_value.
  rewrite (proj2 (ascii_digit_range (48 + (cents x mod 100) / 10)))
    by (Z.div_mod_to_equations; lia).
  rewrite (proj2 (ascii_digit_range (48 + cents x mod 10))) by lia.
  Z.div_mod_to_equations. lia.
Qed.

Lemma int_part_spec (x : Q) :
  int_part x <> [] /\ forallb is_ascii_digit (int_part x) = true /\
  digits_value (rev (int_part x)) = (cents x / 100)%Z.
Proof.
  apply int_digits_rev_spec. pose proof (cents_nonneg x). apply Z.div_pos; lia.
Qed.

Lemma format_currency_parts (x : Q) (rtl : bool) :
  format_currency x rtl =
  [69; 71; 80; 32]%Z ++ sign_text x ++ rev (map (rtl_map rtl) (group3 (int_part x)))
  ++ 46%Z :: map (rtl_map rtl) (frac_part x).
Proof.
  assert (E : format_currency x rtl =
    map (rtl_map rtl) ([69; 71; 80; 32]%Z ++ sign_text x ++ rev (group3 (int_part x))
                       ++ 46%Z :: frac_part x)).
  { unfold format_currency. destruct rtl; [reflexivity|].
    cbn [rtl_map]. rewrite map_id_text. reflexivity. }
  rewrite E, !map_app, map_rev. destruct (rtl_map_ok rtl) as [G0 _].
  cbn [map]. rewrite !G0 by reflexivity.
  unfold sign_text. destruct (Qle_bool 0 x); cbn [map]; rewrite ?G0 by reflexivity;
    reflexivity.
Qed.

Lemma replace_egp_head (f : nat) (rest : text) :
  forallb (fun c => negb (c =? 69)%Z) rest = true ->
  replace_go (S f) [69; 71; 80]%Z [] (69 :: 71 :: 80 :: rest)%Z = rest.
Proof.
  intros H. cbn [replace_go is_prefix app skipn List.length].
  cbn [Z.eqb Pos.eqb andb]. apply replace_egp_none. exact H.
Qed.

Lemma lstrip_head (c : Z) (t : text) : is_py_space c = false -> lstrip (c :: t) = c :: t.
Proof. intros H. cbn [lstrip]. rewrite H. reflexivity. Qed.

(** The text [_sort_tree] hands to [float()] for a formatted amount: the
    sign, the digits without their commas, the point and the two decimals. *)
Lemma sort_key_format (x : Q) (rtl : bool) :
  sort_key_text (format_currency x rtl) =
  numeral (negb (Qle_bool 0 x)) (map (rtl_map rtl) (rev (int_part x)))
    (map (rtl_map rtl) (frac_part x)).
Proof.
  pose proof (rtl_map_ok rtl) as Gok. set (g := rtl_map rtl) in *.
  destruct (int_part_spec x) as [Dne [Dd _]].
  pose proof (frac_part_ascii x) as Fd.
  pose proof (map_digit_chars g _ Gok Dd) as Dc.
  pose proof (map_digit_chars g _ Gok Fd) as Fc.
  rewrite format_currency_parts. fold g.
  unfold sort_key_text, py_replace.
  rewrite replace_char by lia.
  rewrite !filter_app, filter_rev, (group3_filter g (List.length (int_part x))) by
    (auto || lia).
  cbn [filter Z.eqb Pos.eqb negb].
  rewrite (filter_all _ (map g (frac_part x)))
    by (apply (forallb_impl digit_char); [|exact Fc];
        intros c H; unfold digit_char in H; repeat (apply andb_prop in H as [H ?]); assumption).
  assert (S1 : filter (fun c => negb (c =? 44)%Z) (sign_text x) = sign_text x).
  { unfold sign_text. destruct (Qle_bool 0 x); reflexivity. }
  rewrite S1.
  set (rest := sign_text x ++ rev (map g (int_part x)) ++ 46%Z :: map g (frac_part x)).
  change ([69; 71; 80; 32]%Z ++ rest) with (69 :: 71 :: 80 :: 32 :: rest)%Z.
  assert (N69 : forallb (fun c => negb (c =? 69)%Z) (32%Z :: rest) = true).
  { unfold rest, sign_text. cbn [forallb Z.eqb Pos.eqb negb andb].
    rewrite !forallb_app. cbn [forallb Z.eqb Pos.eqb negb andb].
    assert (D69 : forall m, forallb digit_char m = true ->
                   forallb (fun c => negb (c =? 69)%Z) m = true).
    { intros m. apply forallb_impl. intros c H. unfold digit_char in H.
      apply andb_prop in H as [_ H]. exact H. }
    rewrite forallb_rev, (D69 _ Dc), (D69 _ Fc).
    destruct (Qle_bool 0 x); reflexivity. }
  destruct (List.length _) as [|f] eqn:L; [discriminate|].
  rewrite replace_egp_head by exact N69.
  unfold py_strip. change (lstrip (32%Z :: rest)) with (lstrip rest).
  assert (Hd : lstrip rest = rest).
  { unfold rest, sign_text. destruct (Qle_bool 0 x); [|apply lstrip_head; reflexivity].
    cbn [app]. destruct (rev (map g (int_part x))) as [|c t] eqn:R.
    - apply (f_equal (@List.length Z)) in R. rewrite length_rev, length_map in R.
      destruct (int_part x); [contradiction|discriminate].
    - apply lstrip_head.
      assert (In c (map g (int_part x))) as Hc.
      { apply in_rev. rewrite R. left. reflexivity. }
      apply forallb_forall with (x := c) in Dc; [|exact Hc].
      unfold digit_char in Dc. apply negb_true_iff.
      repeat (apply andb_prop in Dc as [Dc ?]). assumption. }
  rewrite Hd.
  assert (Hf : exists d1 d2, map g (frac_part x) = [d1; d2] /\ is_py_space d2 = false).
  { unfold frac_part in *. cbn [map] in *. eexists _, _. split; [reflexivity|].
    cbn [forallb] in Fc. rewrite andb_true_r in Fc. apply andb_prop in Fc as [_ Fc].
    unfold digit_char in Fc. apply negb_true_iff.
    repeat (apply andb_prop in Fc as [Fc ?]). assumption. }
  destruct Hf as [d1 [d2 [Ef Sp]]].
  unfold rest, numeral. rewrite Ef, map_rev.
  assert (Ev : forall a b : text, rev (a ++ b ++ [46%Z; d1; d2]) =
                                  d2 :: rev (a ++ b ++ [46%Z; d1])).
  { intros a b. rewrite !app_assoc. change [46%Z; d1; d2] with ([46%Z; d1] ++ [d2]).
    rewrite app_assoc, rev_unit. reflexivity. }
  rewrite Ev, lstrip_head by exact Sp. rewrite <- Ev, rev_involutive.
  unfold sign_text. destruct (Qle_bool 0 x); reflexivity.
Qed.

Lemma key_value_shown (rtl : bool) (x : Q) : key_value rtl x == shown_amount x.
Proof.
  pose proof (rtl_map_ok rtl) as Gok.
  destruct (int_part_spec x) as [_ [Dd Dv]].
  pose proof (frac_part_ascii x) as Fd.
  rewrite <- forallb_rev in Dd.
  destruct (digits_value_map _ _ Gok Dd) as [V1 _].
  destruct (digits_value_map _ _ Gok Fd) as [V2 _].
  unfold key_value, decimal_value, shown_amount.
  rewrite V1, V2, Dv, frac_part_value, length_map.
  change (List.length (frac_part x)) with 2%nat.
  pose proof (Z.div_mod (cents x) 100 ltac:(lia)) as E.
  set (n := cents x) in *. set (a := (n / 100)%Z) in *. set (b := (n mod 100)%Z) in *.
  destruct (Qle_bool 0 x); cbn [negb]; unfold Qeq, Qdiv, Qmult, Qplus, Qinv, Qopp;
    cbn; lia.
Qed.

Lemma float_keys_format {A} (py_float : text -> option Q) (rtl : bool)
    (rows : list (Q * A)) :
  reads_decimals py_float ->
  float_keys py_float (map (fun r => (format_currency (fst r) rtl, r)) rows) =
  Some (map (fun r => (key_value rtl (fst r), r)) rows).
Proof.
  intros Rd. induction rows as [|[x a] rows IH]; [reflexivity|].
  cbn [map float_keys fst]. rewrite IH, sort_key_format.
  destruct (int_part_spec x) as [Dne [Dd _]].
  pose proof (frac_part_ascii x) as Fd.
  pose proof (rtl_map_ok rtl) as Gok.
  rewrite <- forallb_rev in Dd.
  rewrite Rd; [reflexivity| | |].
  - intros E. apply (f_equal (@List.length Z)) in E.
    rewrite length_map, length_rev in E. destruct (int_part x); [contradiction|discriminate].
  - exact (proj2 (digits_value_map _ _ Gok Dd)).
  - exact (proj2 (digits_value_map _ _ Gok Fd)).
Qed.

Section Insertion.
Context {K A : Type}.
Variable ltb : K -> K -> bool.

Lemma insert_by_perm (x : K * A) (l : list (K * A)) :
  Permutation (insert_by ltb x l) (x :: l).
Proof.
  induction l as [|y l IH]; [reflexivity|]. cbn [insert_by].
  destruct (ltb (fst x) (fst y)); [reflexivity|].
  rewrite IH. apply perm_swap.
Qed.

Lemma fold_insert_perm (l acc : list (K * A)) :
  Permutation (fold_left (fun acc x => insert_by ltb x acc) l acc) (l ++ acc).
Proof.
  revert acc; induction l as [|x l IH]; intros acc; [reflexivity|].
  cbn [fold_left app]. rewrite IH, insert_by_perm.
  symmetry. apply Permutation_middle.
Qed.

Lemma stable_sort_perm (l : list (K * A)) : Permutation (stable_sort ltb l) l.
Proof. unfold stable_sort. rewrite fold_insert_perm, app_nil_r. reflexivity. Qed.

Variable le : K -> K -> Prop.
Hypothesis ltb_le : forall a b, ltb a b = true -> le a b.
Hypothesis not_ltb_le : forall a b, ltb a b = false -> le b a.

Let R (p q : K * A) : Prop := le (fst p) (fst q).

Lemma insert_by_hd (y x : K * A) (l : list (K * A)) :
  HdRel R y l -> R y x -> HdRel R y (insert_by ltb x l).
Proof.
  intros H Hx. destruct l as [|z l]; cbn [insert_by]; [constructor; exact Hx|].
  destruct (ltb (fst x) (fst z)); constructor; [exact Hx|].
  apply HdRel_inv in H. exact H.
Qed.

Lemma insert_by_sorted (x : K * A) (l : list (K * A)) :
  Sorted R l -> Sorted R (insert_by ltb x l).
Proof.
  induction l as [|y l IH]; intros S; cbn [insert_by]; [repeat constructor|].
  destruct (ltb (fst x) (fst y)) eqn:C.
  - constructor; [exact S|]. constructor. apply ltb_le. exact C.
  - apply Sorted_inv in S as [S H]. constructor; [apply IH, S|].
    apply insert_by_hd; [exact H|]. apply not_ltb_le. exact C.
Qed.

Lemma stable_sort_sorted (l : list (K * A)) : Sorted R (stable_sort ltb l).
Proof.
  unfold stable_sort. generalize (@Sorted_nil _ R). generalize (@nil (K * A)).
  induction l as [|x l IH]; intros acc S; [exact S|].
  cbn [fold_left]. apply IH, insert_by_sorted, S.
Qed.

End Insertion.

Lemma sorted_map_snd {B C} (R1 : B -> B -> Prop) (R2 : C -> C -> Prop)
    (P : B -> Prop) (f : B -> C) (l : list B) :
  Sorted R1 l -> Forall P l ->
  (forall a b, P a -> P b -> R1 a b -> R2 (f a) (f b)) -> Sorted R2 (map f l).
Proof.
  intros S F I. induction l as [|a l IH]; [constructor|].
  apply Sorted_inv in S as [S H]. inversion F as [|? ? Pa Fl]; subst.
  cbn [map]. constructor; [apply IH; assumption|].
  destruct l as [|b l]; [constructor|]. cbn [map]. constructor.
  apply HdRel_inv in H. inversion Fl; subst. apply I; assumption.
Qed.

Lemma split_dot_digits (ip fp : text) :
  forallb is_dec_digit ip = true -> split_dot (ip ++ 46%Z :: fp) = (ip, Some fp).
Proof.
  induction ip as [|c ip IH]; intros H; [reflexivity|].
  cbn [forallb] in H. apply andb_prop in H as [Hc H].
  cbn [app split_dot]. rewrite IH by exact H.
  assert (N : (c =? 46)%Z = false).
  { apply Z.eqb_neq. intros ->. discriminate Hc. }
  rewrite N. reflexivity.
Qed.

Lemma decimal_reader_reads : reads_decimals decimal_reader.
Proof.
  intros neg ip fp Ne Hi Hf. destruct ip as [|c ip]; [contradiction|].
  pose proof Hi as Hi0. cbn [forallb] in Hi. apply andb_prop in Hi as [Hc Hi].
  assert (N : (c =? 45)%Z = false).
  { apply Z.eqb_neq. intros ->. discriminate Hc. }
  pose proof (split_dot_digits (c :: ip) fp Hi0) as Sd. cbn [app] in Sd.
  destruct neg; unfold numeral, decimal_reader; cbn [app Z.eqb Pos.eqb];
    [|rewrite N]; rewrite Sd; cbn [negb andb forallb]; rewrite Hc, Hi, Hf; reflexivity.
Qed.

Lemma round_half_even_bounds (q : Q) :
  (Qfloor q <= round_half_even q <= Qfloor q + 1)%Z.
Proof.
  unfold round_half_even. destruct (Qcompare _ _); [destruct (Z.even _)| |]; lia.
Qed.

Lemma round_half_even_mono (q1 q2 : Q) : q1 <= q2 -> (round_half_even q1 <= round_half_even q2)%Z.
Proof.
  intros H. pose proof (Qfloor_resp_le _ _ H) as F.
  pose proof (round_half_even_bounds q1) as B1. pose proof (round_half_even_bounds q2) as B2.
  destruct (Z.eq_dec (Qfloor q1) (Qfloor q2)) as [E|E]; [|lia].
  assert (Fr : q1 - inject_Z (Qfloor q1) <= q2 - inject_Z (Qfloor q2)).
  { rewrite E. apply Qplus_le_compat; [exact H|apply Qle_refl]. }
  unfold round_half_even. rewrite <- E in *.
  destruct (Qcompare_spec (q1 - inject_Z (Qfloor q1)) (1 # 2)) as [C1|C1|C1];
  destruct (Qcompare_spec (q2 - inject_Z (Qfloor q1)) (1 # 2)) as [C2|C2|C2];
    try (exfalso; lra); try (destruct (Z.even _)); lia.
Qed.

Lemma shown_amount_cents (x : Q) :
  shown_amount x == inject_Z (if Qle_bool 0 x then cents x else - cents x) / 100.
Proof.
  unfold shown_amount. destruct (Qle_bool 0 x); [reflexivity|].
  rewrite inject_Z_opp. reflexivity.
Qed.

Lemma div100_mono (a b : Z) : (a <= b)%Z -> inject_Z a / 100 <= inject_Z b / 100.
Proof. intros H. unfold Qle, Qdiv, Qmult, Qinv. cbn. lia. Qed.

Lemma cents_mono (x y : Q) : Qabs x <= Qabs y -> (cents x <= cents y)%Z.
Proof.
  intros H. apply round_half_even_mono. apply Qmult_le_compat_r; [exact H|discriminate].
Qed.

Lemma Qle_bool_false (x y : Q) : Qle_bool x y = false -> y < x.
Proof.
  intros H. apply Qnot_le_lt. intros C. apply Qle_bool_iff in C. congruence.
Qed.

Lemma round_half_even_close (q : Q) :
  q - (1 # 2) <= inject_Z (round_half_even q) <= q + (1 # 2).
Proof.
  pose proof (Qfloor_le q) as F1. pose proof (Qlt_floor q) as F2.
  rewrite inject_Z_plus in F2. change (inject_Z 1) with 1 in F2.
  unfold round_half_even.
  destruct (Qcompare_spec (q - inject_Z (Qfloor q)) (1 # 2)) as [C|C|C];
    [destruct (Z.even (Qfloor q))| |];
    rewrite ?inject_Z_plus; change (inject_Z 1) with 1; split; lra.
Qed.

(** Clicking the heading of a column of amounts (the price column of the
    items, the amount column of the cash list), whose values are
    [format_currency(amount, rtl)]: with a [float()] that reads decimal
    numerals, in ASCII or Arabic-Indic digits, every key is read, the
    rows are reordered, none lost or repeated, from the smallest shown
    amount to the largest. *)
Theorem sort_amount_column {A} (py_float : text -> option Q) (lower : text -> text)
    (rtl : bool) (rows : list (Q * A)) :
  reads_decimals py_float ->
  let sorted := sort_tree py_float lower
                  (map (fun r => (format_currency (fst r) rtl, r)) rows) in
  Permutation sorted rows /\
  Sorted (fun r s => shown_amount (fst r) <= shown_amount (fst s)) sorted.
Proof.
  intros Rd sorted. unfold sorted, sort_tree. rewrite float_keys_format by exact Rd.
  set (ltb := fun a b : Q => negb (Qle_bool b a)).
  set (ks := map (fun r => (key_value rtl (fst r), r)) rows).
  assert (Snd : map snd ks = rows).
  { unfold ks. rewrite map_map. cbn [snd]. apply map_id. }
  split.
  - rewrite <- Snd at 1. apply Permutation_map, stable_sort_perm.
  - assert (Fk : Forall (fun p : Q * (Q * A) => fst p == shown_amount (fst (snd p)))
                   (stable_sort ltb ks)).
    { apply (Permutation_Forall (Permutation_sym (stable_sort_perm ltb ks))).
      unfold ks. apply Forall_map, Forall_forall. intros r _. apply key_value_shown. }
    assert (L1 : forall a b, ltb a b = true -> a <= b).
    { intros a b H. unfold ltb in H. apply negb_true_iff in H.
      apply Qlt_le_weak, Qnot_le_lt. intros C. apply Qle_bool_iff in C. congruence. }
    assert (L2 : forall a b, ltb a b = false -> b <= a).
    { intros a b H. unfold ltb in H. apply negb_false_iff, Qle_bool_iff in H. exact H. }
    apply (sorted_map_snd (fun p q : Q * (Q * A) => fst p <= fst q) _ _ _ _
             (stable_sort_sorted ltb Qle L1 L2 ks) Fk).
    intros a b Ea Eb Le. cbn beta in Ea, Eb. rewrite <- Ea, <- Eb. exact Le.
Qed.

(** [format_currency] never shows a smaller amount for a larger number:
    the rounding to cents, with its sign, keeps the order of the amounts. *)
Theorem format_currency_monotone (x y : Q) :
  x <= y -> shown_amount x <= shown_amount y.
Proof.
  intros H. rewrite (shown_amount_cents x), (shown_amount_cents y).
  apply div100_mono.
  pose proof (cents_nonneg x) as Nx. pose proof (cents_nonneg y) as Ny.
  destruct (Qle_bool 0 x) eqn:Sx, (Qle_bool 0 y) eqn:Sy.
  - apply Qle_bool_iff in Sx, Sy. apply cents_mono.
    rewrite (Qabs_pos x Sx), (Qabs_pos y Sy). exact H.
  - apply Qle_bool_iff in Sx. apply Qle_bool_false in Sy. exfalso. lra.
  - lia.
  - apply Qle_bool_false in Sx, Sy.
    assert (Qabs y <= Qabs x).
    { rewrite (Qabs_neg x), (Qabs_neg y) by lra. lra. }
    pose proof (cents_mono y x ltac:(assumption)). lia.
Qed.

(** The text [format_currency] writes, read back as [_sort_tree] reads it
    (commas and [EGP] removed, spaces stripped, then [float()]), is the
    amount rounded to cents, in ASCII as in Arabic-Indic digits. *)
Theorem format_currency_reads_back (py_float : text -> option Q) (rtl : bool) (x : Q) :
  reads_decimals py_float ->
  exists q, py_float (sort_key_text (format_currency x rtl)) = Some q /\
            q == shown_amount x.
Proof.
  intros Rd. pose proof (float_keys_format py_float rtl [(x, tt)] Rd) as E.
  cbn [map float_keys fst] in E.
  destruct (py_float (sort_key_text (format_currency x rtl))) as [q|]; [|discriminate].
  exists q. split; [reflexivity|]. injection E as Hq. rewrite Hq.
  apply (key_value_shown rtl x).
Qed.

(** The amount [format_currency] shows is within half a cent of the
    amount: rounding half to even, to the nearest cent. *)
Theorem format_currency_half_cent (x : Q) : Qabs (shown_amount x - x) <= 1 # 200.
Proof.
  rewrite (shown_amount_cents x). apply Qabs_Qle_condition. unfold cents.
  pose proof (round_half_even_close (Qabs x * 100)) as [B1 B2].
  unfold Qdiv. change (/ 100) with (1 # 100).
  set (r := round_half_even (Qabs x * 100)) in *.
  destruct (Qle_bool 0 x) eqn:Sx.
  - apply Qle_bool_iff in Sx. rewrite (Qabs_pos x Sx) in B1, B2. split; lra.
  - apply Qle_bool_false in Sx. rewrite (Qabs_neg x) in B1, B2 by lra.
    rewrite inject_Z_opp. split; lra.
Qed.

End SortFacts.

Module ExtraWitnesses.
Import Ui.
Local Open Scope string_scope.

(** A sale at 14:30:05 on 2026-10-19, reported that day. *)
Lemma daily_window_rows_witness :
  valid_datetime (Time.mkDT (Time.mkDate 2026 10 19) 14 30 5 0) = true /\
  Time.valid_date (Time.mkDate 2026 10 19) = true /\
  exists lo hi,
    App.report_window App.Daily (Time.mkDate 2026 10 19) = Some (lo, hi) /\
    Time.between (Time.now_iso (Time.mkDT (Time.mkDate 2026 10 19) 14 30 5 0))
      (Time.isoformat lo) (Time.isoformat hi) =
    date_eqb (Time.mkDate 2026 10 19) (Time.mkDate 2026 10 19).
Proof.
  split; [reflexivity|]. split; [reflexivity|].
  apply (ReportFacts.daily_window_rows (Time.mkDT (Time.mkDate 2026 10 19) 14 30 5 0)
           (Time.mkDate 2026 10 19)); reflexivity.
Defined.

Lemma monthly_window_rows_witness :
  valid_datetime (Time.mkDT (Time.mkDate 2026 9 30) 23 59 59 0) = true /\
  Time.valid_date (Time.mkDate 2026 10 19) = true /\
  exists lo hi,
    App.report_window App.Monthly (Time.mkDate 2026 10 19) = Some (lo, hi) /\
    Time.between (Time.now_iso (Time.mkDT (Time.mkDate 2026 9 30) 23 59 59 0))
      (Time.isoformat lo) (Time.isoformat hi) =
    ((2026 =? 2026) && (9 =? 10))%Z.
Proof.
  split; [reflexivity|]. split; [reflexivity|].
  apply (ReportFacts.monthly_window_rows (Time.mkDT (Time.mkDate 2026 9 30) 23 59 59 0)
           (Time.mkDate 2026 10 19)); [reflexivity | reflexivity | left; reflexivity].
Defined.

Lemma sale_in_daily_report_witness :
  valid_datetime (Time.mkDT (Time.mkDate 2026 10 19) 14 30 5 0) = true /\
  Time.valid_date (Time.mkDate 2026 10 19) = true /\
  exists rep rep',
    App.build_report App.Daily (Time.mkDate 2026 10 19) App.empty_db = Some rep /\
    App.build_report App.Daily (Time.mkDate 2026 10 19)
      (App.record_sale App.empty_db 1 25 2 (Time.mkDT (Time.mkDate 2026 10 19) 14 30 5 0))
      = Some rep' /\
    App.item_sales_total rep' =
      (if date_eqb (Time.mkDate 2026 10 19) (Time.mkDate 2026 10 19)
       then App.item_sales_total rep + 25 * inject_Z 2
       else App.item_sales_total rep) /\
    App.total_revenue rep' =
      (if date_eqb (Time.mkDate 2026 10 19) (Time.mkDate 2026 10 19)
       then App.session_revenue rep + (App.item_sales_total rep + 25 * inject_Z 2)
       else App.total_revenue rep) /\
    App.session_revenue rep' = App.session_revenue rep /\
    App.cash_net rep' = App.cash_net rep.
Proof.
  split; [reflexivity|]. split; [reflexivity|].
  apply (ReportFacts.sale_in_daily_report App.empty_db 1 25 2
           (Time.mkDT (Time.mkDate 2026 10 19) 14 30 5 0) (Time.mkDate 2026 10 19));
    reflexivity.
Defined.

(** A capitalised "Deposit" typed into the combobox. *)
Lemma cash_in_daily_report_witness :
  valid_datetime (Time.mkDT (Time.mkDate 2026 10 19) 9 0 0 0) = true /\
  Time.valid_date (Time.mkDate 2026 10 19) = true /\ 0 < 50 /\
  exists rep rep' db' f',
    add_cash (Time.mkDT (Time.mkDate 2026 10 19) 9 0 0 0)
      (mkCashForm 50 "Deposit" "float") App.empty_db = (App.Recorded, f', db') /\
    App.build_report App.Daily (Time.mkDate 2026 10 19) App.empty_db = Some rep /\
    App.build_report App.Daily (Time.mkDate 2026 10 19) db' = Some rep' /\
    App.cash_net rep' =
      (if date_eqb (Time.mkDate 2026 10 19) (Time.mkDate 2026 10 19)
       then App.cash_net rep +
            (if String.eqb "Deposit" "deposit" then 50 else - 50)
       else App.cash_net rep) /\
    App.session_revenue rep' = App.session_revenue rep /\
    App.item_sales_total rep' = App.item_sales_total rep /\
    App.total_revenue rep' = App.total_revenue rep.
Proof.
  split; [reflexivity|]. split; [reflexivity|]. split; [reflexivity|].
  apply (ReportFacts.cash_in_daily_report App.empty_db (mkCashForm 50 "Deposit" "float")
           (Time.mkDT (Time.mkDate 2026 10 19) 9 0 0 0) (Time.mkDate 2026 10 19));
    reflexivity.
Defined.

Lemma stop_in_daily_report_witness :
  valid_datetime (Time.mkDT (Time.mkDate 2026 10 19) 23 59 59 0) = true /\
  Time.valid_date (Time.mkDate 2026 10 19) = true /\
  Engine.running (Engine.start 0 Engine.init) = true /\
  exists s' db',
    App.stop_station 5400 5400 (Time.mkDT (Time.mkDate 2026 10 19) 23 59 59 0)
      (Time.mkDT (Time.mkDate 2026 10 20) 0 0 0 0) (App.mkStation "PS5 #1" 60)
      (Engine.start 0 Engine.init) App.empty_db = Some (s', db') /\
    exists rep rep' r,
      App.sessions db' = (App.sessions App.empty_db ++ [r])%list /\
      App.build_report App.Daily (Time.mkDate 2026 10 19) App.empty_db = Some rep /\
      App.build_report App.Daily (Time.mkDate 2026 10 19) db' = Some rep' /\
      App.session_revenue rep' =
        (if date_eqb (Time.mkDate 2026 10 19) (Time.mkDate 2026 10 19)
         then App.session_revenue rep + App.cost r else App.session_revenue rep) /\
      App.item_sales_total rep' = App.item_sales_total rep /\
      App.cash_net rep' = App.cash_net rep.
Proof.
  split; [reflexivity|]. split; [reflexivity|]. split; [reflexivity|].
  do 2 eexists. split; [reflexivity|].
  eapply (ReportFacts.stop_in_daily_report 5400 5400
            (Time.mkDT (Time.mkDate 2026 10 19) 23 59 59 0)
            (Time.mkDT (Time.mkDate 2026 10 20) 0 0 0 0) (App.mkStation "PS5 #1" 60)
            (Engine.start 0 Engine.init)); reflexivity.
Defined.

(** Running since 0, an hour and a half at 60 per hour. *)
Lemma dashboard_cost_is_saved_cost_witness :
  Engine.running (Engine.start 0 Engine.init) = true /\
  exists txt c lbl s' db',
    dashboard_line 5400 (App.mkStation "PS5 #1" 60) (Engine.start 0 Engine.init)
      = Some (txt, c, lbl) /\
    App.stop_station 5400 5401 (Time.mkDT (Time.mkDate 2026 10 19) 13 30 0 0)
      (Time.mkDT (Time.mkDate 2026 10 19) 13 30 0 1) (App.mkStation "PS5 #1" 60)
      (Engine.start 0 Engine.init) App.empty_db = Some (s', db') /\
    exists r, App.sessions db' = (App.sessions App.empty_db ++ [r])%list /\ App.cost r = c.
Proof.
  split; [reflexivity|].
  do 5 eexists. split; [reflexivity|]. split; [reflexivity|].
  eapply (ReportFacts.dashboard_cost_is_saved_cost 5400 5401
            (Time.mkDT (Time.mkDate 2026 10 19) 13 30 0 0)
            (Time.mkDT (Time.mkDate 2026 10 19) 13 30 0 1) (App.mkStation "PS5 #1" 60)
            (Engine.start 0 Engine.init)); reflexivity.
Defined.

(** "2026" and nothing else. *)
Lemma to_arabic_numerals_injective_witness :
  forallb (fun c => negb (is_arabic_digit c)) [50; 48; 50; 54]%Z = true /\
  to_arabic_numerals [50; 48; 50; 54]%Z = to_arabic_numerals [50; 48; 50; 54]%Z /\
  [50; 48; 50; 54]%Z = [50; 48; 50; 54]%Z.
Proof.
  split; [reflexivity|]. split; [reflexivity|].
  apply DisplayFacts.to_arabic_numerals_injective; reflexivity.
Defined.

(** One day, one hour, one minute and one and a half seconds. *)
Lemma timer_text_modulo_day_witness :
  0 <= 90061.5 /\ 90061.5 + 86400 <= 1000000000000 /\
  (exists h m s,
     timer_text 90061.5 = Time.pad2 h ++ ":" ++ Time.pad2 m ++ ":" ++ Time.pad2 s /\
     (0 <= h < 24 /\ 0 <= m < 60 /\ 0 <= s < 60)%Z /\
     (h * 3600 + m * 60 + s = Qfloor 90061.5 mod 86400)%Z) /\
  timer_text (90061.5 + 86400) = timer_text 90061.5.
Proof.
  assert (A : 0 <= 90061.5) by (unfold Qle; simpl; lia).
  assert (B : 90061.5 + 86400 <= 1000000000000) by (unfold Qle; simpl; lia).
  split; [exact A|]. split; [exact B|].
  exact (DisplayFacts.timer_text_modulo_day 90061.5 A B).
Defined.

Lemma start_on_running_renames_witness :
  Engine.running (Engine.start 0 Engine.init) = true /\
  start_station "Omar" 30 (Engine.start 0 Engine.init) =
    Engine.mkState true (Engine.paused (Engine.start 0 Engine.init))
      (Engine.start_ts (Engine.start 0 Engine.init))
      (Engine.elapsed (Engine.start 0 Engine.init)) "Omar".
Proof.
  split; [reflexivity|].
  exact (proj1 (DisplayFacts.start_on_running_renames "Omar" 30
                  (Engine.start 0 Engine.init) eq_refl)).
Defined.

(** Add " Cola ", a rejected empty name, a rejected edit to price 0, and a
    cancelled delete. *)
Lemma items_always_valid_witness :
  exists T,
    item_run (fun s => s)
      [CAdd "Cola" 15; CAdd "" 5; CEdit 1 "Pepsi" 0; CDelete 1 false] empty_items
      = Some T /\
    NoDup (map App.item_key (rows T)) /\
    Forall (fun it => App.name it <> "" /\ 0 < App.price it) (rows T).
Proof.
  eexists. split; [reflexivity|].
  apply (ItemFacts.items_always_valid (fun s => s)
           [CAdd "Cola" 15; CAdd "" 5; CEdit 1 "Pepsi" 0; CDelete 1 false]).
  reflexivity.
Defined.

(** Add Cola (id 1) and Tea (id 2), delete Cola, add Water: Water gets 3. *)
Lemma deleted_id_never_reused_witness :
  exists T T',
    item_run (fun s => s) [CAdd "Cola" 15; CAdd "Tea" 10] empty_items = Some T /\
    App.find_item (rows T) 1 = Some (App.mkItem 1 "Cola" 15) /\
    item_run (fun s => s) [CDelete 1 true; CAdd "Water" 5] T = Some T' /\
    App.find_item (rows T') 1 = None.
Proof.
  do 2 eexists. split; [reflexivity|]. split; [reflexivity|]. split; [reflexivity|].
  eapply (ItemFacts.deleted_id_never_reused (fun s => s)
            [CAdd "Cola" 15; CAdd "Tea" 10] [CAdd "Water" 5]); reflexivity.
Defined.

(** The counter (5) is ahead of the largest id present (3). *)
Lemma save_new_item_lookup_witness :
  exists T',
    save_new_item "Juice" 12 (mkItems [App.mkItem 3 "Tea" 10] 5) = Some T' /\
    (seq (mkItems [App.mkItem 3 "Tea" 10] 5) < seq T')%Z /\
    rows T' = (rows (mkItems [App.mkItem 3 "Tea" 10] 5) ++
               [App.mkItem (seq T') "Juice" 12])%list /\
    App.find_item (rows T') (seq T') = Some (App.mkItem (seq T') "Juice" 12) /\
    (forall k, k <> seq T' ->
       App.find_item (rows T') k = App.find_item (rows (mkItems [App.mkItem 3 "Tea" 10] 5)) k).
Proof.
  eexists. split; [reflexivity|].
  eapply ItemFacts.save_new_item_lookup. reflexivity.
Defined.

Lemma update_delete_lookup_witness :
  (2 <> 1)%Z /\
  App.find_item (rows (update_item 1 "Juice" 12
    (mkItems [App.mkItem 1 "Tea" 10; App.mkItem 2 "Cola" 15] 2))) 2 =
  App.find_item (rows (mkItems [App.mkItem 1 "Tea" 10; App.mkItem 2 "Cola" 15] 2)) 2 /\
  App.find_item (rows (delete_item 1
    (mkItems [App.mkItem 1 "Tea" 10; App.mkItem 2 "Cola" 15] 2))) 2 =
  App.find_item (rows (mkItems [App.mkItem 1 "Tea" 10; App.mkItem 2 "Cola" 15] 2)) 2.
Proof.
  assert (N : (2 <> 1)%Z) by lia. split; [exact N|].
  exact (proj2 (proj2 (ItemFacts.update_delete_lookup 1 2 "Juice" 12
           (mkItems [App.mkItem 1 "Tea" 10; App.mkItem 2 "Cola" 15] 2))) N).
Defined.


(** Sorting three prices shown in Arabic-Indic digits. *)
Lemma sort_amount_column_witness :
  Columns.reads_decimals Columns.decimal_reader /\
  (let sorted := Columns.sort_tree Columns.decimal_reader (fun t => t)
                   (map (fun r => (Columns.format_currency (fst r) true, r))
                      [(100%Q, 1%nat); ((-25)%Q, 2%nat); (1234.5%Q, 3%nat)]) in
   Permutation sorted [(100%Q, 1%nat); ((-25)%Q, 2%nat); (1234.5%Q, 3%nat)] /\
   Sorted (fun r s => (Columns.shown_amount (fst r) <= Columns.shown_amount (fst s))%Q)
     sorted).
Proof.
  split; [exact SortFacts.decimal_reader_reads|].
  apply (SortFacts.sort_amount_column Columns.decimal_reader (fun t => t) true).
  exact SortFacts.decimal_reader_reads.
Defined.

(** -1.5 and 2 keep their order once shown. *)
Lemma format_currency_monotone_witness :
  ((-3 # 2) <= 2)%Q /\
  (Columns.shown_amount (-3 # 2) <= Columns.shown_amount 2)%Q.
Proof.
  split; [unfold Qle; simpl; lia|].
  apply SortFacts.format_currency_monotone. unfold Qle; simpl; lia.
Defined.

(** 1,234.50 in Arabic-Indic digits reads back as 1234.50. *)
Lemma format_currency_reads_back_witness :
  Columns.reads_decimals Columns.decimal_reader /\
  exists q, Columns.decimal_reader
              (Columns.sort_key_text (Columns.format_currency 1234.5 true)) = Some q /\
            (q == Columns.shown_amount 1234.5)%Q.
Proof.
  split; [exact SortFacts.decimal_reader_reads|].
  apply (SortFacts.format_currency_reads_back Columns.decimal_reader true 1234.5).
  exact SortFacts.decimal_reader_reads.
Defined.
End ExtraWitnesses.

Module TimeTests.
Import Time.
Example iso_max : isoformat (combine_max (mkDate 2026 10 19)) = "2026-10-19T23:59:59.999999"%string.
Proof. reflexivity. Qed.
Example iso_min : isoformat (midnight (mkDate 987 3 4)) = "0987-03-04T00:00:00"%string.
Proof. reflexivity. Qed.
Example sub1 : option_map isoformat (dt_sub_second (midnight (mkDate 2024 3 1))) = Some "2024-02-29T23:59:59"%string.
Proof. reflexivity. Qed.
Example add32 : option_map isoformat (dt_add_days 32 (midnight (mkDate 2023 12 1))) = Some "2024-01-02T00:00:00"%string.
Proof. reflexivity. Qed.
End TimeTests.
